(** * DateCollator: date collation by configurable date parts

    A shallow embedding of [src/DateCollator.js] (class [DateCollator], its
    constructor and the [compare] accessor with the inner functions
    [compareUnbound] and [datePartReducer]) together with the part of the
    ECMAScript run-time the class calls: [Date] accessors, [String(...)],
    string comparison, [Math.min]/[Math.max], [Array.isArray] and
    [Array.prototype.includes]. *)

From Stdlib Require Import ZArith List Bool Lia.
From Stdlib Require Import Strings.Ascii Strings.String.
Import ListNotations.

Local Open Scope string_scope.
Local Open Scope Z_scope.

Set Warnings "-register-all".

(* ================================================================== *)
(** ** Exceptions and abrupt completion *)

(** The error classes the source instantiates ([TypeError], [RangeError],
    [Error]) and the one the engine raises for an unresolvable identifier
    ([ReferenceError]).  Each carries its message. *)
Inductive Exception : Type :=
| TypeError (message : string)
| RangeError (message : string)
| ReferenceError (message : string)
| Error (message : string).

(** A call either returns a value or throws. *)
Inductive Outcome (A : Type) : Type :=
| Return (a : A)
| Raise (e : Exception).

Arguments Return {A} a.
Arguments Raise {A} e.

Definition bind {A B : Type} (m : Outcome A) (k : A -> Outcome B) : Outcome B :=
  match m with
  | Return a => k a
  | Raise e => Raise e
  end.

Notation "x <- m ;; k" := (bind m (fun x => k))
  (at level 61, m at next level, right associativity).

(** [Array.prototype.map] with a callback that may throw: elements are
    visited left to right and the first exception escapes. *)
Fixpoint mapM {A B : Type} (f : A -> Outcome B) (l : list A) : Outcome (list B) :=
  match l with
  | [] => Return []
  | x :: r => y <- f x ;; ys <- mapM f r ;; Return (y :: ys)
  end.

(** [Array.prototype.reduce] with an initial value and a callback that may
    throw. *)
Fixpoint reduceM {A B : Type} (f : B -> A -> Outcome B) (l : list A) (init : B)
  : Outcome B :=
  match l with
  | [] => Return init
  | x :: r => acc <- f init x ;; reduceM f r acc
  end.

Definition returns {A : Type} (m : Outcome A) : Prop := exists a, m = Return a.
Definition raises {A : Type} (m : Outcome A) : Prop := exists e, m = Raise e.

(* ================================================================== *)
(** ** Values *)

(** Number primitives as far as the class meets them: [NaN] and the
    integers (every [Date] accessor yields an integer, and differences of
    such integers are exact). *)
Inductive Number : Type :=
| NaN
| Num (z : Z).

(** ECMAScript values.  A [Date] object carries its time value: [None] is
    the [NaN] time value of an "Invalid Date", [Some t] is [t] milliseconds
    since the epoch.  An object that is neither a [Date] nor an array is
    represented by what the class can observe of it, the outcome of its
    conversion to a string: [Some s] when [toString]/[valueOf] yield the
    primitive text [s] (["[object Object]"] for a plain literal), [None] when
    the conversion throws (for instance [Object.create(null)], which has no
    [toString] and no [valueOf]).  [VObject] stands for objects that do not
    have [Date.prototype] on their prototype chain.  An object that has it
    without being a [Date] (for instance [Object.create( Date.prototype )])
    is a [VDateLike]: it passes [instanceof Date], every method of
    [Date.prototype] throws a [TypeError] on it, and its conversion to a
    string is [Some s] when a [toString] of its own yields [s] and [None]
    when the conversion throws, as the inherited one does. *)
Inductive Value : Type :=
| VUndefined
| VNull
| VBoolean (b : bool)
| VNumber (n : Number)
| VString (s : string)
| VDate (tv : option Z)
| VArray (elements : list Value)
| VObject (conversion : option string)
| VDateLike (conversion : option string).

(** ToBoolean. *)
Definition truthy (v : Value) : bool :=
  match v with
  | VUndefined | VNull => false
  | VBoolean b => b
  | VNumber NaN => false
  | VNumber (Num z) => negb (z =? 0)
  | VString s => negb (s =? "")%string
  | VDate _ | VArray _ | VObject _ | VDateLike _ => true
  end.

(** The operator [a || b]. *)
Definition or_else (a b : Value) : Value := if truthy a then a else b.

Definition isArray (v : Value) : bool :=
  match v with
  | VArray _ => true
  | _ => false
  end.

(** [strings.includes( v )] for an array of string primitives: SameValueZero
    holds only for a string primitive with the same text. *)
Definition includes (strings : list string) (v : Value) : bool :=
  match v with
  | VString s => existsb (String.eqb s) strings
  | _ => false
  end.

(* ================================================================== *)
(** ** Numbers *)

Definition sub (a b : Number) : Number :=
  match a, b with
  | Num x, Num y => Num (x - y)
  | _, _ => NaN
  end.

(** [n == 0]. *)
Definition is_zero (n : Number) : bool :=
  match n with
  | Num z => z =? 0
  | NaN => false
  end.

(** [Math.max] and [Math.min] on two numbers: [NaN] is contagious. *)
Definition Math_max (a b : Number) : Number :=
  match a, b with
  | Num x, Num y => Num (Z.max x y)
  | _, _ => NaN
  end.

Definition Math_min (a b : Number) : Number :=
  match a, b with
  | Num x, Num y => Num (Z.min x y)
  | _, _ => NaN
  end.

(* ================================================================== *)
(** ** Text *)

(** Strings are sequences of code units; the texts that occur here are
    Latin, one [ascii] per code unit.  The relational operators on two
    strings compare code unit by code unit. *)
Definition string_lt (a b : string) : bool :=
  match String.compare a b with
  | Lt => true
  | _ => false
  end.

Definition string_gt (a b : string) : bool := string_lt b a.

(** The sign of the lexicographic comparison of two texts. *)
Definition textOrder (a b : string) : Z :=
  match String.compare a b with
  | Lt => -1
  | Eq => 0
  | Gt => 1
  end.

Definition digit (d : Z) : ascii := ascii_of_N (Z.to_N (48 + d)).

(** Decimal digits of a non-negative integer, most significant first, at
    least one digit. *)
Fixpoint digits_fuel (fuel : nat) (n : Z) (acc : string) : string :=
  match fuel with
  | O => acc
  | S fuel' =>
      let acc' := String (digit (n mod 10)) acc in
      if n / 10 =? 0 then acc' else digits_fuel fuel' (n / 10) acc'
  end.

Definition digits (n : Z) : string :=
  digits_fuel (S (Z.to_nat (Z.log2 n))) n "".

Fixpoint zeros (k : nat) : string :=
  match k with
  | O => ""
  | S k' => String "0" (zeros k')
  end.

(** [ToZeroPaddedDecimalString( n, minLength )]. *)
Definition ToZeroPaddedDecimalString (n : Z) (minLength : nat) : string :=
  let s := digits n in
  zeros (minLength - String.length s) ++ s.

(** [Number::toString] for [NaN] and for the integers every decimal digit
    of which is significant (those of magnitude up to two to the
    fifty-third, which covers every number the class computes); larger
    integers print rounded, or with an exponent, and are outside this
    definition. *)
Definition NumberToString (n : Number) : string :=
  match n with
  | NaN => "NaN"
  | Num z => if z <? 0 then "-" ++ digits (- z) else digits z
  end.

(* ================================================================== *)
(** ** Time values and the [Date] accessors *)

(** What the class takes from its surroundings: the offset of local time
    from UTC at a given instant, in milliseconds ([LocalTZA]), the
    implementation-defined time zone suffix of [Date.prototype.toString]
    (empty, or a space and a name in parentheses), and the bindings of the
    global scope, where an identifier that no enclosing function or module
    scope declares is looked up. *)
Record Host : Type := {
  LocalTZA : Z -> Z;
  tzName : Z -> string;
  globalBinding : string -> option Value
}.

(** A host in the UTC time zone with no global variable of its own. *)
Definition utcHost : Host := {|
  LocalTZA := fun _ => 0;
  tzName := fun _ => " (Coordinated Universal Time)";
  globalBinding := fun _ => None
|}.

Module Time.

Definition msPerSecond : Z := 1000.
Definition msPerMinute : Z := 60000.
Definition msPerHour : Z := 3600000.
Definition msPerDay : Z := 86400000.

Definition Day (t : Z) : Z := t / msPerDay.

Definition isLeap (y : Z) : bool :=
  ((y mod 4 =? 0) && negb (y mod 100 =? 0)) || (y mod 400 =? 0).

Definition DayFromYear (y : Z) : Z :=
  365 * (y - 1970) + (y - 1969) / 4 - (y - 1901) / 100 + (y - 1601) / 400.

(** The largest [y] with [DayFromYear y <= Day t]: the mean length of a
    year (146097 days in 400 years) gives an estimate that is off by at
    most one, which the two comparisons repair. *)
Definition YearFromTime (t : Z) : Z :=
  let d := Day t in
  let y := 1970 + (400 * d) / 146097 in
  if d <? DayFromYear y then y - 1
  else if DayFromYear (y + 1) <=? d then y + 1
  else y.

Definition InLeapYear (t : Z) : Z :=
  if isLeap (YearFromTime t) then 1 else 0.

Definition DayWithinYear (t : Z) : Z := Day t - DayFromYear (YearFromTime t).

Definition MonthFromTime (t : Z) : Z :=
  let d := DayWithinYear t in
  let leap := InLeapYear t in
  if d <? 31 then 0
  else if d <? 59 + leap then 1
  else if d <? 90 + leap then 2
  else if d <? 120 + leap then 3
  else if d <? 151 + leap then 4
  else if d <? 181 + leap then 5
  else if d <? 212 + leap then 6
  else if d <? 243 + leap then 7
  else if d <? 273 + leap then 8
  else if d <? 304 + leap then 9
  else if d <? 334 + leap then 10
  else 11.

Definition DateFromTime (t : Z) : Z :=
  let d := DayWithinYear t in
  let leap := InLeapYear t in
  match MonthFromTime t with
  | 0 => d + 1
  | 1 => d - 30
  | 2 => d - 58 - leap
  | 3 => d - 89 - leap
  | 4 => d - 119 - leap
  | 5 => d - 150 - leap
  | 6 => d - 180 - leap
  | 7 => d - 211 - leap
  | 8 => d - 242 - leap
  | 9 => d - 272 - leap
  | 10 => d - 303 - leap
  | _ => d - 333 - leap
  end.

Definition WeekDay (t : Z) : Z := (Day t + 4) mod 7.

Definition HourFromTime (t : Z) : Z := (t / msPerHour) mod 24.
Definition MinFromTime (t : Z) : Z := (t / msPerMinute) mod 60.
Definition SecFromTime (t : Z) : Z := (t / msPerSecond) mod 60.
Definition msFromTime (t : Z) : Z := t mod msPerSecond.

Definition LocalTime (h : Host) (t : Z) : Z := t + LocalTZA h t.

(** [MakeDay]/[MakeTime]/[MakeDate] for in-range fields: the time value
    of a calendar date and clock time given in UTC. *)
Definition daysBeforeMonth (y m : Z) : Z :=
  let leap := if isLeap y then 1 else 0 in
  match m with
  | 0 => 0
  | 1 => 31
  | 2 => 59 + leap
  | 3 => 90 + leap
  | 4 => 120 + leap
  | 5 => 151 + leap
  | 6 => 181 + leap
  | 7 => 212 + leap
  | 8 => 243 + leap
  | 9 => 273 + leap
  | 10 => 304 + leap
  | _ => 334 + leap
  end.

Definition UTC (year month date hours minutes seconds ms : Z) : Z :=
  (DayFromYear year + daysBeforeMonth year month + date - 1) * msPerDay
  + hours * msPerHour + minutes * msPerMinute + seconds * msPerSecond + ms.

End Time.

(** The accessors of [Date.prototype], on the time value of a valid date. *)
Module DatePrototype.
Import Time.

Definition getFullYear (h : Host) (t : Z) : Z := YearFromTime (LocalTime h t).
Definition getMonth (h : Host) (t : Z) : Z := MonthFromTime (LocalTime h t).
Definition getDate (h : Host) (t : Z) : Z := DateFromTime (LocalTime h t).
Definition getDay (h : Host) (t : Z) : Z := WeekDay (LocalTime h t).
Definition getHours (h : Host) (t : Z) : Z := HourFromTime (LocalTime h t).
Definition getMinutes (h : Host) (t : Z) : Z := MinFromTime (LocalTime h t).
Definition getSeconds (h : Host) (t : Z) : Z := SecFromTime (LocalTime h t).
Definition getMilliseconds (h : Host) (t : Z) : Z := msFromTime (LocalTime h t).

Definition getUTCFullYear (t : Z) : Z := YearFromTime t.
Definition getUTCMonth (t : Z) : Z := MonthFromTime t.
Definition getUTCDate (t : Z) : Z := DateFromTime t.
Definition getUTCDay (t : Z) : Z := WeekDay t.
Definition getUTCHours (t : Z) : Z := HourFromTime t.
Definition getUTCMinutes (t : Z) : Z := MinFromTime t.
Definition getUTCSeconds (t : Z) : Z := SecFromTime t.
Definition getUTCMilliseconds (t : Z) : Z := msFromTime t.

Definition weekdayName (wd : Z) : string :=
  match wd with
  | 0 => "Sun"
  | 1 => "Mon"
  | 2 => "Tue"
  | 3 => "Wed"
  | 4 => "Thu"
  | 5 => "Fri"
  | _ => "Sat"
  end.

Definition monthName (m : Z) : string :=
  match m with
  | 0 => "Jan"
  | 1 => "Feb"
  | 2 => "Mar"
  | 3 => "Apr"
  | 4 => "May"
  | 5 => "Jun"
  | 6 => "Jul"
  | 7 => "Aug"
  | 8 => "Sep"
  | 9 => "Oct"
  | 10 => "Nov"
  | _ => "Dec"
  end.

(** [DateString( tv )]: weekday, month, day and year of a local time. *)
Definition DateString (tv : Z) : string :=
  let yv := YearFromTime tv in
  weekdayName (WeekDay tv) ++ " " ++ monthName (MonthFromTime tv) ++ " "
  ++ ToZeroPaddedDecimalString (DateFromTime tv) 2 ++ " "
  ++ (if yv <? 0 then "-" else "") ++ ToZeroPaddedDecimalString (Z.abs yv) 4.

(** [TimeString( tv )]. *)
Definition TimeString (tv : Z) : string :=
  ToZeroPaddedDecimalString (HourFromTime tv) 2 ++ ":"
  ++ ToZeroPaddedDecimalString (MinFromTime tv) 2 ++ ":"
  ++ ToZeroPaddedDecimalString (SecFromTime tv) 2 ++ " GMT".

(** [TimeZoneString( tv )]. *)
Definition TimeZoneString (h : Host) (tv : Z) : string :=
  let offset := LocalTZA h tv in
  let absOffset := Z.abs offset in
  (if 0 <=? offset then "+" else "-")
  ++ ToZeroPaddedDecimalString (HourFromTime absOffset) 2
  ++ ToZeroPaddedDecimalString (MinFromTime absOffset) 2
  ++ tzName h tv.

(** [ToDateString( tv )], the text of [Date.prototype.toString]. *)
Definition ToDateString (h : Host) (tv : option Z) : string :=
  match tv with
  | None => "Invalid Date"
  | Some tv =>
      let t := LocalTime h tv in
      DateString t ++ " " ++ TimeString t ++ TimeZoneString h tv
  end.

End DatePrototype.

(* ================================================================== *)
(** ** Conversion to a string *)

(** [String( v )], also the conversion a template literal applies to a
    substitution.  An array joins the texts of its elements with commas,
    [null] and [undefined] elements giving the empty text. *)
Fixpoint ToString (h : Host) (v : Value) : Outcome string :=
  match v with
  | VUndefined => Return "undefined"
  | VNull => Return "null"
  | VBoolean b => Return (if b then "true" else "false")
  | VNumber n => Return (NumberToString n)
  | VString s => Return s
  | VDate tv => Return (DatePrototype.ToDateString h tv)
  | VArray elements =>
      let element (e : Value) : Outcome string :=
        match e with
        | VUndefined | VNull => Return ""
        | _ => ToString h e
        end in
      (fix join (l : list Value) : Outcome string :=
         match l with
         | [] => Return ""
         | [e] => element e
         | e :: r => s <- element e ;; t <- join r ;; Return (s ++ "," ++ t)
         end) elements
  | VObject (Some s) => Return s
  | VObject None => Raise (TypeError "Cannot convert object to primitive value")
  | VDateLike (Some s) => Return s
  | VDateLike None => Raise (TypeError "this is not a Date object.")
  end.

(** [v === s] for a string literal [s], the test of a [case] label. *)
Definition strictEq (v : Value) (s : string) : bool :=
  match v with
  | VString x => (x =? s)%string
  | _ => false
  end.

(* ================================================================== *)
(** ** The class *)

Module DateCollator.
Import DatePrototype.

(** The options object: its two properties, [VUndefined] when absent.
    After construction this is [this.hidden.options]. *)
Record Options : Type := {
  dateSensitivity : Value;
  dateUsage : Value
}.

(** [Object.values( DateCollator.DateSensitivity )]. *)
Definition DateSensitivity : list string :=
  ["era"; "year"; "month"; "weekday"; "day"; "dayPeriod"; "hour"; "minute";
   "second"; "fractionalSecond"].

(** [Object.values( DateCollator.DateUsage )]. *)
Definition DateUsage : list string := ["local"; "utc"].

Definition defaultDateSensitivity : Value :=
  VArray [VString "year"; VString "month"; VString "day"; VString "hour";
          VString "minute"; VString "second"; VString "fractionalSecond"].

(** [new DateCollator( _locales, options )] with [options] an object
    ([Some]) or a missing or [null] argument ([None]).  The message of the
    [RangeError] for [dateSensitivity] reads the identifier
    [eachDateSensitivity] where only the global scope can bind it: the
    parameter of that name belongs to the arrow function passed to
    [some]. *)
Definition constructor (h : Host) (_locales : Value) (options : option Options)
  : Outcome Options :=
  let options :=
    match options with
    | Some o => o
    | None => {| dateSensitivity := VUndefined; dateUsage := VUndefined |}
    end in
  let sensitivity := or_else (dateSensitivity options) defaultDateSensitivity in
  let usage := or_else (dateUsage options) (VString "local") in
  let this := {| dateSensitivity := sensitivity; dateUsage := usage |} in
  match sensitivity with
  | VArray elements =>
      if existsb (fun eachDateSensitivity =>
                    negb (includes DateSensitivity eachDateSensitivity))
           elements
      then
        match globalBinding h "eachDateSensitivity" with
        | None => Raise (ReferenceError "eachDateSensitivity is not defined")
        | Some g =>
            s <- ToString h g ;;
            Raise (RangeError ("Value '" ++ s ++
              "' out of range for DateCollator options property 'dateSensitivity'."))
        end
      else if negb (includes DateUsage usage)
      then
        s <- ToString h usage ;;
        Raise (RangeError ("Value '" ++ s ++
          "' out of range for DateCollator options property 'dateUsage'."))
      else Return this
  | _ =>
      Raise (TypeError
        "DateCollator options property 'dateSensitivity' must be an array.")
  end.

(** [datePartReducer( difference, partPair )].  The accumulator arrives
    as a value and must be a number. *)
Definition datePartReducer (difference : Value) (partPair : Number * Number)
  : Outcome Number :=
  match difference with
  | VNumber difference =>
      Return (if is_zero difference
              then sub (fst partPair) (snd partPair)
              else difference)
  | _ => Raise (TypeError "Initial value must be a number (or Number).")
  end.

Definition unhandledDateSensitivity (h : Host) (eachDateSensitivity : Value)
  : Outcome (Number * Number) :=
  s <- ToString h eachDateSensitivity ;;
  Raise (Error ("Unhandled 'dateSensitivity' value '" ++ s ++ "'.")).

(** The callback of [dateSensitivity.map] in [compareUnbound], for the
    time values [l] and [r] of two valid dates.  The [default] of the
    outer [switch] reads [this.options], a property the instance does not
    have, before it can build its [Error]. *)
Definition partPair (h : Host) (this : Options) (l r : Z)
           (eachDateSensitivity : Value) : Outcome (Number * Number) :=
  let both (get : Z -> Z) := Return (Num (get l), Num (get r)) in
  if strictEq (dateUsage this) "local" then
    if strictEq eachDateSensitivity "day" then both (getDate h)
    else if strictEq eachDateSensitivity "dayPeriod"
    then both (fun t => getHours h t / 12)
    else if strictEq eachDateSensitivity "era"
    then both (fun t => Z.sgn (getFullYear h t))
    else if strictEq eachDateSensitivity "hour" then both (getHours h)
    else if strictEq eachDateSensitivity "minute" then both (getMinutes h)
    else if strictEq eachDateSensitivity "second" then both (getSeconds h)
    else if strictEq eachDateSensitivity "month" then both (getMonth h)
    else if strictEq eachDateSensitivity "weekday" then both (getDay h)
    else if strictEq eachDateSensitivity "year" then both (getFullYear h)
    else if strictEq eachDateSensitivity "fractionalSecond"
    then both (getMilliseconds h)
    else unhandledDateSensitivity h eachDateSensitivity
  else if strictEq (dateUsage this) "utc" then
    if strictEq eachDateSensitivity "day" then both getUTCDate
    else if strictEq eachDateSensitivity "dayPeriod"
    then both (fun t => getUTCHours t / 12)
    else if strictEq eachDateSensitivity "era"
    then both (fun t => Z.sgn (getUTCFullYear t))
    else if strictEq eachDateSensitivity "hour" then both getUTCHours
    else if strictEq eachDateSensitivity "minute" then both getUTCMinutes
    else if strictEq eachDateSensitivity "second" then both getUTCSeconds
    else if strictEq eachDateSensitivity "month" then both getUTCMonth
    else if strictEq eachDateSensitivity "weekday" then both getUTCDay
    else if strictEq eachDateSensitivity "year" then both getUTCFullYear
    else if strictEq eachDateSensitivity "fractionalSecond"
    then both getUTCMilliseconds
    else unhandledDateSensitivity h eachDateSensitivity
  else
    Raise (TypeError "Cannot read properties of undefined (reading 'dateUsage')").

(** [v instanceof Date]: [Date.prototype] is on the prototype chain. *)
Definition instanceofDate (v : Value) : bool :=
  match v with
  | VDate _ | VDateLike _ => true
  | _ => false
  end.

(** [v.getTime()]: the time value of a [Date]; on an object that only
    inherits the method it throws, and the remaining values have no such
    method to call. *)
Definition getTime (v : Value) : Outcome Number :=
  match v with
  | VDate (Some t) => Return (Num t)
  | VDate None => Return NaN
  | VDateLike _ => Raise (TypeError "this is not a Date object.")
  | VUndefined | VNull =>
      Raise (TypeError "Cannot read properties of undefined (reading 'getTime')")
  | _ => Raise (TypeError "getTime is not a function")
  end.

(** The test [leftDate instanceof Date && rightDate instanceof Date
    && !Number.isNaN( leftDate.getTime())
    && !Number.isNaN( rightDate.getTime())], evaluated left to right with
    the short circuits of [&&].  When it holds the result carries the two
    time values, which the accessors of the [if] branch decompose. *)
Definition areBothValidDates (leftDate rightDate : Value)
  : Outcome (option (Z * Z)) :=
  if instanceofDate leftDate && instanceofDate rightDate then
    leftTime <- getTime leftDate ;;
    match leftTime with
    | NaN => Return None
    | Num l =>
        rightTime <- getTime rightDate ;;
        match rightTime with
        | NaN => Return None
        | Num r => Return (Some (l, r))
        end
    end
  else Return None.

(** [Math.min( Math.max( -1, difference ), +1 )]. *)
Definition clamp (difference : Number) : Number :=
  Math_min (Math_max (Num (-1)) difference) (Num 1).

(** The receiver of [this.hidden.options.dateSensitivity.map]: the
    elements of an array; no other value has a [map] to call. *)
Definition elementsOf (v : Value) : Outcome (list Value) :=
  match v with
  | VArray elements => Return elements
  | VUndefined | VNull =>
      Raise (TypeError "Cannot read properties of undefined (reading 'map')")
  | _ =>
      Raise (TypeError "this.hidden.options.dateSensitivity.map is not a function")
  end.

(** [compareUnbound( leftDate, rightDate )] bound to [this]. *)
Definition compareUnbound (h : Host) (this : Options) (leftDate rightDate : Value)
  : Outcome Number :=
  both <- areBothValidDates leftDate rightDate ;;
  match both with
  | Some (l, r) =>
      elements <- elementsOf (dateSensitivity this) ;;
      partPairs <- mapM (partPair h this l r) elements ;;
      difference <- reduceM (fun d pp => datePartReducer (VNumber d) pp)
                      partPairs (Num 0) ;;
      Return (clamp difference)
  | None =>
      leftString <- ToString h leftDate ;;
      rightString <- ToString h rightDate ;;
      let difference :=
        if string_lt leftString rightString then Num (-1)
        else if string_gt leftString rightString then Num 1
        else Num 0 in
      Return (clamp difference)
  end.

(** The accessor [compare]: [compareUnbound] bound to the instance. *)
Definition compare (h : Host) (this : Options) : Value -> Value -> Outcome Number :=
  compareUnbound h this.

End DateCollator.

(* ================================================================== *)
(** ** The comparison as the specification words it *)

(** The data model of the specification (enumerated [DatePart] and
    [DateUsage] tags), its table of extracted values, and the
    short-circuiting lexicographic comparison over the configured parts.
    These definitions follow the specification's text, not the source; the
    theorems below relate them to [DateCollator.compare]. *)
Module Spec.
Import DatePrototype.

Inductive DatePart : Type :=
| era | year | month | weekday | day | dayPeriod
| hour | minute | second | fractionalSecond.

Inductive DateUsage : Type := local | utc.

Definition tag (p : DatePart) : string :=
  match p with
  | era => "era"
  | year => "year"
  | month => "month"
  | weekday => "weekday"
  | day => "day"
  | dayPeriod => "dayPeriod"
  | hour => "hour"
  | minute => "minute"
  | second => "second"
  | fractionalSecond => "fractionalSecond"
  end.

Definition usageTag (u : DateUsage) : string :=
  match u with
  | local => "local"
  | utc => "utc"
  end.

(** The accessor family selected by the usage. *)
Definition fullYear (h : Host) (u : DateUsage) (t : Z) : Z :=
  match u with local => getFullYear h t | utc => getUTCFullYear t end.
Definition monthIndex (h : Host) (u : DateUsage) (t : Z) : Z :=
  match u with local => getMonth h t | utc => getUTCMonth t end.
Definition dayOfMonth (h : Host) (u : DateUsage) (t : Z) : Z :=
  match u with local => getDate h t | utc => getUTCDate t end.
Definition dayOfWeek (h : Host) (u : DateUsage) (t : Z) : Z :=
  match u with local => getDay h t | utc => getUTCDay t end.
Definition hours (h : Host) (u : DateUsage) (t : Z) : Z :=
  match u with local => getHours h t | utc => getUTCHours t end.
Definition minutes (h : Host) (u : DateUsage) (t : Z) : Z :=
  match u with local => getMinutes h t | utc => getUTCMinutes t end.
Definition seconds (h : Host) (u : DateUsage) (t : Z) : Z :=
  match u with local => getSeconds h t | utc => getUTCSeconds t end.
Definition milliseconds (h : Host) (u : DateUsage) (t : Z) : Z :=
  match u with local => getMilliseconds h t | utc => getUTCMilliseconds t end.

(** The table "Per-DatePart extraction semantics". *)
Definition extract (h : Host) (u : DateUsage) (p : DatePart) (t : Z) : Z :=
  match p with
  | year => fullYear h u t
  | month => monthIndex h u t
  | day => dayOfMonth h u t
  | weekday => dayOfWeek h u t
  | hour => hours h u t
  | minute => minutes h u t
  | second => seconds h u t
  | fractionalSecond => milliseconds h u t
  | dayPeriod => if hours h u t <? 12 then 0 else 1
  | era =>
      let y := fullYear h u t in
      if y <? 0 then -1 else if y =? 0 then 0 else 1
  end.

(** "The first DatePart in the ordered sequence whose pair differs
    (non-zero subtraction) determines the sign of the result; if all
    configured parts are equal, result is 0." *)
Fixpoint shortCircuit (h : Host) (u : DateUsage) (parts : list DatePart)
         (l r : Z) : Z :=
  match parts with
  | [] => 0
  | p :: rest =>
      let leftComponent := extract h u p l in
      let rightComponent := extract h u p r in
      if leftComponent - rightComponent =? 0
      then shortCircuit h u rest l r
      else Z.sgn (leftComponent - rightComponent)
  end.

(** The configuration object that lists the given parts and usage. *)
Definition configuration (parts : list DatePart) (u : DateUsage)
  : DateCollator.Options :=
  {| DateCollator.dateSensitivity := VArray (map (fun p => VString (tag p)) parts);
     DateCollator.dateUsage := VString (usageTag u) |}.

(** A [dateUsage] option: absent, or one of the two tags. *)
Definition usageOption (u : option DateUsage) : Value :=
  match u with
  | None => VUndefined
  | Some u => VString (usageTag u)
  end.

End Spec.

(* ================================================================== *)
(** ** The values of the test suite *)

Module Fixtures.

(** The time values of [new Date( 2020, 2, 23, 9, 0 )] and its
    companions, on a host in the UTC time zone. *)
Definition time2020_03_23T09_00 : Z := Time.UTC 2020 2 23 9 0 0 0.
Definition time2020_03_23T17_00 : Z := Time.UTC 2020 2 23 17 0 0 0.
Definition time2026_03_23T11_00 : Z := Time.UTC 2026 2 23 11 0 0 0.

Definition date2020_03_23T09_00 : Value := VDate (Some time2020_03_23T09_00).
Definition date2020_03_23T17_00 : Value := VDate (Some time2020_03_23T17_00).
Definition date2026_03_23T11_00 : Value := VDate (Some time2026_03_23T11_00).
Definition anyValidDate : Value := date2020_03_23T17_00.

(** [new Date( NaN )]. *)
Definition invalidDate : Value := VDate None.

(** [new Date( 2020, 2, 27, 17, 0 )], a Friday. *)
Definition time2020_03_27T17_00 : Z := Time.UTC 2020 2 27 17 0 0 0.
Definition date2020_03_27T17_00 : Value := VDate (Some time2020_03_27T17_00).



(** [this.hidden.options] of [new DateCollator()]. *)
Definition defaultOptions : DateCollator.Options :=
  {| DateCollator.dateSensitivity := DateCollator.defaultDateSensitivity;
     DateCollator.dateUsage := VString "local" |}.

(** The options literal [{dateSensitivity: v}]. *)
Definition onlySensitivity (v : Value) : DateCollator.Options :=
  {| DateCollator.dateSensitivity := v; DateCollator.dateUsage := VUndefined |}.

End Fixtures.

(* ================================================================== *)
(** ** Named sensitivities and views *)

Module Parts.

(** The sensitivity of the first documented example, "the same day". *)
Definition calendarDay : list Spec.DatePart :=
  [Spec.year; Spec.month; Spec.day].

(** The sensitivity of the test "example 'utc' time only". *)
Definition timeOfDay : list Spec.DatePart :=
  [Spec.hour; Spec.minute; Spec.second; Spec.fractionalSecond].

(** The default sensitivity of the constructor, as parts. *)
Definition defaultParts : list Spec.DatePart := calendarDay ++ timeOfDay.

(** The time value the accessors of a usage decompose: the local time for
    [getFullYear] and its family, the time value itself for
    [getUTCFullYear] and its family. *)
Definition viewTime (h : Host) (u : Spec.DateUsage) (t : Z) : Z :=
  match u with
  | Spec.local => Time.LocalTime h t
  | Spec.utc => t
  end.

(** [options || {}]: the object whose properties the constructor reads. *)
Definition supplied (options : option DateCollator.Options)
  : DateCollator.Options :=
  match options with
  | Some o => o
  | None => {| DateCollator.dateSensitivity := VUndefined;
               DateCollator.dateUsage := VUndefined |}
  end.

(** The value of the tag of a part. *)
Definition tagValue (p : Spec.DatePart) : Value := VString (Spec.tag p).

End Parts.

(* ================================================================== *)
(** * Properties *)

Section Clamp.
Import DateCollator.

Lemma clamp_sgn (z : Z) : clamp (Num z) = Num (Z.sgn z).
Proof.
  unfold clamp, Math_min, Math_max. f_equal.
  destruct z; simpl; lia.
Qed.

Lemma sgn_cases (z : Z) : Z.sgn z = -1 \/ Z.sgn z = 0 \/ Z.sgn z = 1.
Proof. destruct z; simpl; auto. Qed.

End Clamp.

Section Texts.
Import DatePrototype.

Lemma append_assoc (a b c : string) : (a ++ b) ++ c = a ++ (b ++ c).
Proof. induction a as [|x a IH]; simpl; [reflexivity | now rewrite IH]. Qed.

Lemma string_gt_compare (a b : string) :
  string_gt a b = match String.compare a b with Gt => true | _ => false end.
Proof.
  unfold string_gt, string_lt. rewrite (String.compare_antisym a b).
  destruct (String.compare b a); reflexivity.
Qed.

(** Every weekday name is one of the seven, whatever the index. *)
Lemma weekdayName_cases (wd : Z) :
  In (weekdayName wd) ["Sun"; "Mon"; "Tue"; "Wed"; "Thu"; "Fri"; "Sat"].
Proof.
  unfold weekdayName.
  destruct wd as [|p|p]; [simpl; tauto| |simpl; tauto].
  do 3 (try destruct p as [p|p|]); simpl; tauto.
Qed.

(** The text of a valid date starts with the name of its local weekday. *)
Lemma ToDateString_valid (h : Host) (t : Z) :
  exists rest,
    ToDateString h (Some t) = weekdayName (getDay h t) ++ String " " rest.
Proof.
  unfold ToDateString, DateString, getDay.
  eexists.
  rewrite append_assoc. simpl. reflexivity.
Qed.

Lemma WeekDay_range (t : Z) : 0 <= Time.WeekDay t < 7.
Proof. unfold Time.WeekDay. apply Z.mod_pos_bound. lia. Qed.

Lemma HourFromTime_range (t : Z) : 0 <= Time.HourFromTime t < 24.
Proof. unfold Time.HourFromTime. apply Z.mod_pos_bound. lia. Qed.

End Texts.

Section Fallback.
Import DatePrototype DateCollator.

Variable h : Host.
Variable this : Options.

(** When the validity test fails without throwing and both sides convert,
    the result is the order of the two texts. *)
Lemma compare_fallback (a b : Value) (sa sb : string) :
  areBothValidDates a b = Return None ->
  ToString h a = Return sa ->
  ToString h b = Return sb ->
  compare h this a b = Return (Num (textOrder sa sb)).
Proof.
  intros Hnv Ha Hb. unfold compare, compareUnbound.
  rewrite Hnv, Ha, Hb. simpl.
  rewrite string_gt_compare. unfold string_lt, textOrder.
  destruct (String.compare sa sb); reflexivity.
Qed.

Lemma date_text_before_null (t : Z) :
  String.compare (ToDateString h (Some t)) "null" = Lt.
Proof.
  destruct (ToDateString_valid h t) as [rest ->].
  pose proof (weekdayName_cases (getDay h t)) as Hw. simpl in Hw.
  repeat (destruct Hw as [<- | Hw]; [reflexivity |]). contradiction.
Qed.

Lemma date_text_before_undefined (t : Z) :
  String.compare (ToDateString h (Some t)) "undefined" = Lt.
Proof.
  destruct (ToDateString_valid h t) as [rest ->].
  pose proof (weekdayName_cases (getDay h t)) as Hw. simpl in Hw.
  repeat (destruct Hw as [<- | Hw]; [reflexivity |]). contradiction.
Qed.

(** The text of an invalid date against the text of a valid one: only
    the name of Friday sorts before ["Invalid Date"]. *)
Lemma invalid_text_against_date (t : Z) :
  String.compare "Invalid Date" (ToDateString h (Some t))
  = if getDay h t =? 5 then Gt else Lt.
Proof.
  destruct (ToDateString_valid h t) as [rest ->].
  pose proof (WeekDay_range (Time.LocalTime h t)) as Hr.
  fold (getDay h t) in Hr.
  assert (Hc : getDay h t = 0 \/ getDay h t = 1 \/ getDay h t = 2 \/
               getDay h t = 3 \/ getDay h t = 4 \/ getDay h t = 5 \/
               getDay h t = 6) by lia.
  repeat (destruct Hc as [-> | Hc]; [reflexivity |]).
  rewrite Hc. reflexivity.
Qed.

Lemma compare_date_null (t : Z) :
  compare h this (VDate (Some t)) VNull = Return (Num (-1)).
Proof.
  rewrite (compare_fallback _ _ (ToDateString h (Some t)) "null");
    [| reflexivity | reflexivity | reflexivity].
  unfold textOrder. now rewrite date_text_before_null.
Qed.

Lemma compare_null_date (t : Z) :
  compare h this VNull (VDate (Some t)) = Return (Num 1).
Proof.
  rewrite (compare_fallback _ _ "null" (ToDateString h (Some t)));
    [| reflexivity | reflexivity | reflexivity].
  unfold textOrder. rewrite String.compare_antisym.
  now rewrite date_text_before_null.
Qed.

Lemma compare_date_undefined (t : Z) :
  compare h this (VDate (Some t)) VUndefined = Return (Num (-1)).
Proof.
  rewrite (compare_fallback _ _ (ToDateString h (Some t)) "undefined");
    [| reflexivity | reflexivity | reflexivity].
  unfold textOrder. now rewrite date_text_before_undefined.
Qed.

Lemma compare_null_undefined :
  compare h this VNull VUndefined = Return (Num (-1)).
Proof. reflexivity. Qed.

Lemma compare_undefined_null :
  compare h this VUndefined VNull = Return (Num 1).
Proof. reflexivity. Qed.

Lemma compare_absent_absent :
  compare h this VUndefined VUndefined = Return (Num 0).
Proof. reflexivity. Qed.

(** An invalid date against a valid one: after it on a Friday, before it
    on every other day of the week. *)
Lemma compare_invalid_date (t : Z) :
  compare h this (VDate None) (VDate (Some t))
  = Return (Num (if getDay h t =? 5 then 1 else -1)).
Proof.
  rewrite (compare_fallback _ _ "Invalid Date" (ToDateString h (Some t)));
    [| reflexivity | reflexivity | reflexivity].
  unfold textOrder. rewrite invalid_text_against_date.
  destruct (getDay h t =? 5); reflexivity.
Qed.

End Fallback.

Section ValidDates.
Import DatePrototype DateCollator.

Variable h : Host.

(** The code's [dayPeriod] and [era] computations agree with the table
    of the specification. *)
Lemma dayPeriod_floor (t : Z) :
  Time.HourFromTime t / 12 = if Time.HourFromTime t <? 12 then 0 else 1.
Proof.
  pose proof (HourFromTime_range t) as Hr.
  destruct (Z.ltb_spec (Time.HourFromTime t) 12).
  - apply Z.div_small. lia.
  - symmetry. apply (Z.div_unique _ 12 1 (Time.HourFromTime t - 12)); lia.
Qed.

Lemma era_sign (y : Z) :
  Z.sgn y = if y <? 0 then -1 else if y =? 0 then 0 else 1.
Proof. destruct y; reflexivity. Qed.

(** On a configuration made of recognized tags the callback of [map]
    returns the pair the table prescribes; neither [default] is taken. *)
Lemma partPair_configuration (parts : list Spec.DatePart) (u : Spec.DateUsage)
      (p : Spec.DatePart) (l r : Z) :
  partPair h (Spec.configuration parts u) l r (VString (Spec.tag p))
  = Return (Num (Spec.extract h u p l), Num (Spec.extract h u p r)).
Proof.
  destruct u, p; cbn [partPair Spec.configuration dateUsage Spec.usageTag
                       Spec.tag strictEq String.eqb Ascii.eqb Bool.eqb];
    cbn [Spec.extract Spec.fullYear Spec.hours Spec.monthIndex Spec.dayOfMonth
         Spec.dayOfWeek Spec.minutes Spec.seconds Spec.milliseconds];
    try reflexivity;
    unfold getHours, getUTCHours, getFullYear, getUTCFullYear;
    rewrite <- ?era_sign, <- ?dayPeriod_floor; reflexivity.
Qed.

Lemma partPairs_configuration (parts all : list Spec.DatePart)
      (u : Spec.DateUsage) (l r : Z) :
  mapM (partPair h (Spec.configuration all u) l r)
       (map (fun p => VString (Spec.tag p)) parts)
  = Return (map (fun p => (Num (Spec.extract h u p l),
                           Num (Spec.extract h u p r))) parts).
Proof.
  induction parts as [|p parts IH]; simpl; [reflexivity |].
  rewrite partPair_configuration. simpl. rewrite IH. reflexivity.
Qed.

(** The reducer never meets a non-number. *)
Lemma datePartReducer_number (d : Number) (pp : Number * Number) :
  datePartReducer (VNumber d) pp
  = Return (if is_zero d then sub (fst pp) (snd pp) else d).
Proof. reflexivity. Qed.

(** The reduction keeps the first non-zero difference. *)
Lemma reduce_first_difference (u : Spec.DateUsage) (parts : list Spec.DatePart)
      (l r d : Z) :
  exists z,
    reduceM (fun d pp => datePartReducer (VNumber d) pp)
      (map (fun p => (Num (Spec.extract h u p l),
                      Num (Spec.extract h u p r))) parts) (Num d)
    = Return (Num z)
    /\ Z.sgn z = if d =? 0 then Spec.shortCircuit h u parts l r else Z.sgn d.
Proof.
  revert d. induction parts as [|p parts IH]; intros d; simpl.
  - exists d. split; [reflexivity |].
    destruct (Z.eqb_spec d 0) as [-> |]; reflexivity.
  - destruct (Z.eqb_spec d 0) as [-> | Hd]; simpl.
    + destruct (IH (Spec.extract h u p l - Spec.extract h u p r)) as [z [Hz Hs]].
      exists z. split; [exact Hz |]. exact Hs.
    + destruct (IH d) as [z [Hz Hs]].
      exists z. split; [exact Hz |].
      rewrite Hs. destruct (Z.eqb_spec d 0); [contradiction | reflexivity].
Qed.

Lemma shortCircuit_sign (u : Spec.DateUsage) (parts : list Spec.DatePart)
      (l r : Z) :
  Z.sgn (Spec.shortCircuit h u parts l r) = Spec.shortCircuit h u parts l r.
Proof.
  induction parts as [|p parts IH]; simpl; [reflexivity |].
  destruct (_ =? 0); [exact IH | apply Z.sgn_sgn].
Qed.

(** Two valid dates under a configuration of recognized tags: the result
    is the short-circuit comparison. *)
Lemma compare_configuration (parts : list Spec.DatePart) (u : Spec.DateUsage)
      (l r : Z) :
  compare h (Spec.configuration parts u) (VDate (Some l)) (VDate (Some r))
  = Return (Num (Spec.shortCircuit h u parts l r)).
Proof.
  unfold compare, compareUnbound.
  change (areBothValidDates (VDate (Some l)) (VDate (Some r)))
    with (Return (Some (l, r))).
  change (elementsOf (dateSensitivity (Spec.configuration parts u)))
    with (Return (map (fun p => VString (Spec.tag p)) parts)).
  cbn [bind]. rewrite partPairs_configuration. cbn [bind].
  destruct (reduce_first_difference u parts l r 0) as [z [Hz Hs]].
  rewrite Hz. cbn [bind]. rewrite clamp_sgn, Hs. reflexivity.
Qed.

End ValidDates.

Section Construction.
Import DateCollator.

Variable h : Host.

Lemma recognized_part (v : Value) :
  includes DateSensitivity v = true -> exists p, v = VString (Spec.tag p).
Proof.
  destruct v as [| | | |s| | | |]; simpl; try discriminate.
  rewrite !Bool.orb_true_iff, !String.eqb_eq.
  intros H.
  repeat (destruct H as [-> | H]);
    first [ now exists Spec.era | now exists Spec.year | now exists Spec.month
          | now exists Spec.weekday | now exists Spec.day
          | now exists Spec.dayPeriod | now exists Spec.hour
          | now exists Spec.minute | now exists Spec.second
          | now exists Spec.fractionalSecond | discriminate ].
Qed.

Lemma recognized_usage (v : Value) :
  includes DateUsage v = true -> exists u, v = VString (Spec.usageTag u).
Proof.
  destruct v as [| | | |s| | | |]; simpl; try discriminate.
  rewrite !Bool.orb_true_iff, !String.eqb_eq.
  intros [-> | [-> | H]];
    [now exists Spec.local | now exists Spec.utc | discriminate].
Qed.

Lemma recognized_parts (elements : list Value) :
  existsb (fun e => negb (includes DateSensitivity e)) elements = false ->
  exists parts, elements = map (fun p => VString (Spec.tag p)) parts.
Proof.
  induction elements as [|e elements IH]; simpl; intros H.
  - now exists [].
  - apply Bool.orb_false_elim in H as [He Hr].
    apply Bool.negb_false_iff in He.
    destruct (recognized_part e He) as [p ->].
    destruct (IH Hr) as [parts ->].
    now exists (p :: parts).
Qed.

(** What a successful construction stores: an array of recognized part
    tags and a recognized usage tag. *)
Lemma constructor_validated (_locales : Value) (options : option Options)
      (this : Options) :
  constructor h _locales options = Return this ->
  exists parts u, this = Spec.configuration parts u.
Proof.
  unfold constructor.
  set (o := match options with Some o => o | None => _ end).
  destruct (or_else (dateSensitivity o) defaultDateSensitivity)
    as [| | | | | |elements| |]; try discriminate.
  destruct (existsb _ elements) eqn:Hparts.
  - destruct (globalBinding h "eachDateSensitivity") as [g|]; [| discriminate].
    destruct (ToString h g); discriminate.
  - destruct (negb (includes DateUsage _)) eqn:Husage.
    + destruct (ToString h _); discriminate.
    + intros [= <-].
      apply Bool.negb_false_iff in Husage.
      destruct (recognized_usage _ Husage) as [u Hu].
      destruct (recognized_parts _ Hparts) as [parts ->].
      exists parts, u. unfold Spec.configuration. now rewrite Hu.
Qed.

(** A truthy [dateSensitivity] that is not an array is refused. *)
Lemma constructor_not_array (_locales : Value) (o : Options) :
  truthy (dateSensitivity o) = true ->
  isArray (dateSensitivity o) = false ->
  constructor h _locales (Some o)
  = Raise (TypeError
      "DateCollator options property 'dateSensitivity' must be an array.").
Proof.
  intros Ht Ha. unfold constructor, or_else. rewrite Ht.
  destruct (dateSensitivity o); try reflexivity. discriminate.
Qed.

(** An array with an unrecognized element: the message cannot be built,
    for [eachDateSensitivity] is not in scope where it is read. *)
Lemma constructor_unrecognized (_locales : Value) (o : Options)
      (elements : list Value) :
  dateSensitivity o = VArray elements ->
  existsb (fun e => negb (includes DateSensitivity e)) elements = true ->
  globalBinding h "eachDateSensitivity" = None ->
  constructor h _locales (Some o)
  = Raise (ReferenceError "eachDateSensitivity is not defined").
Proof.
  intros Hs He Hg. unfold constructor, or_else. rewrite Hs. cbn [truthy].
  rewrite He, Hg. reflexivity.
Qed.

(** An empty array is kept as it is. *)
Lemma constructor_empty (_locales : Value) (u : option Spec.DateUsage) :
  constructor h _locales
    (Some {| dateSensitivity := VArray []; dateUsage := Spec.usageOption u |})
  = Return (Spec.configuration []
              (match u with Some u => u | None => Spec.local end)).
Proof. destruct u as [[|]|]; reflexivity. Qed.

End Construction.

Section Comparison.
Import DateCollator.

Variable h : Host.

(** The validity test holds only of two [Date] objects with time values. *)
Lemma areBothValidDates_Some (a b : Value) (l r : Z) :
  areBothValidDates a b = Return (Some (l, r)) ->
  a = VDate (Some l) /\ b = VDate (Some r).
Proof.
  unfold areBothValidDates.
  destruct a as [| | | | |[ta|]| | |]; simpl; try discriminate;
    destruct b as [| | | | |[tb|]| | |]; simpl; try discriminate.
  now intros [= -> ->].
Qed.

Lemma areBothValidDates_dates (l r : Z) :
  areBothValidDates (VDate (Some l)) (VDate (Some r)) = Return (Some (l, r)).
Proof. reflexivity. Qed.

(** The validity test throws exactly when [getTime] is reached on an object
    that passes [instanceof Date] without being a [Date]: the left one when
    both pass, or the right one when the left is a valid date. *)
Lemma areBothValidDates_raises (a b : Value) :
  raises (areBothValidDates a b)
  <-> ((exists c, a = VDateLike c) /\ instanceofDate b = true)
      \/ (exists l c, a = VDate (Some l) /\ b = VDateLike c).
Proof.
  unfold areBothValidDates, raises. split.
  - intros [e He].
    destruct a as [| | | | |[ta|]| | |ca]; destruct b as [| | | | |[tb|]| | |cb];
      simpl in He; try discriminate;
      first [ right; do 2 eexists; split; reflexivity
            | left; split; [eexists; reflexivity | reflexivity] ].
  - intros [[[c ->] Hb] | [l [c [-> ->]]]]; simpl.
    + rewrite Hb. eexists. reflexivity.
    + eexists. reflexivity.
Qed.

(** The string fallback is taken exactly when a side does not pass
    [instanceof Date], or the left side is an invalid date, or the left
    side is a valid date and the right side an invalid one. *)
Lemma fallback_taken_iff (a b : Value) :
  areBothValidDates a b = Return None
  <-> instanceofDate a = false
      \/ instanceofDate b = false
      \/ a = VDate None
      \/ ((exists l, a = VDate (Some l)) /\ b = VDate None).
Proof.
  unfold areBothValidDates. split.
  - destruct a as [| | | | |[ta|]| | |ca]; simpl; auto;
      destruct b as [| | | | |[tb|]| | |cb]; simpl; auto;
      try discriminate.
    intros _. right. right. right. split; [now exists ta | reflexivity].
  - intros [Ha | [Hb | [-> | [[l ->] ->]]]].
    + now rewrite Ha.
    + rewrite Hb. now rewrite Bool.andb_false_r.
    + simpl. destruct (instanceofDate b); reflexivity.
    + reflexivity.
Qed.

Lemma shortCircuit_cases (u : Spec.DateUsage) (parts : list Spec.DatePart)
      (l r : Z) :
  let z := Spec.shortCircuit h u parts l r in z = -1 \/ z = 0 \/ z = 1.
Proof.
  intros z. subst z. rewrite <- shortCircuit_sign. apply sgn_cases.
Qed.

Lemma shortCircuit_antisym (u : Spec.DateUsage) (parts : list Spec.DatePart)
      (l r : Z) :
  Spec.shortCircuit h u parts r l = - Spec.shortCircuit h u parts l r.
Proof.
  induction parts as [|p parts IH]; simpl; [reflexivity |].
  set (a := Spec.extract h u p l). set (b := Spec.extract h u p r).
  destruct (Z.eqb_spec (a - b) 0) as [E | N];
    destruct (Z.eqb_spec (b - a) 0) as [E' | N']; lia.
Qed.

Lemma textOrder_cases (a b : string) :
  textOrder a b = -1 \/ textOrder a b = 0 \/ textOrder a b = 1.
Proof. unfold textOrder. destruct (String.compare a b); auto. Qed.

(** A comparator that was constructed, on two inputs on which the validity
    test does not throw and that convert to a string: the call returns, and
    returns -1, 0 or +1. *)
Lemma compare_total (_locales : Value) (options : option Options)
      (this : Options) (a b : Value) :
  constructor h _locales options = Return this ->
  returns (areBothValidDates a b) ->
  returns (ToString h a) ->
  returns (ToString h b) ->
  exists z, compare h this a b = Return (Num z) /\ (z = -1 \/ z = 0 \/ z = 1).
Proof.
  intros Hc [[[l r] |] Hv] [sa Ha] [sb Hb].
  - destruct (constructor_validated h _ _ _ Hc) as [parts [u ->]].
    apply areBothValidDates_Some in Hv as [-> ->].
    rewrite compare_configuration. eexists. split; [reflexivity |].
    apply shortCircuit_cases.
  - rewrite (compare_fallback h _ a b sa sb); auto.
    eexists. split; [reflexivity | apply textOrder_cases].
Qed.


(** Exactly when a constructed comparator throws: the validity test
    throws, or it fails and the conversion of a side to a string throws. *)
Lemma compare_raises_exactly (_locales : Value) (options : option Options)
      (this : Options) (a b : Value) :
  constructor h _locales options = Return this ->
  raises (compare h this a b) <->
  raises (areBothValidDates a b)
  \/ (areBothValidDates a b = Return None
      /\ (raises (ToString h a) \/ raises (ToString h b))).
Proof.
  intros Hc. split.
  - intros [e He].
    destruct (areBothValidDates a b) as [[[l r] |] | ev] eqn:Hv.
    + destruct (compare_total _ _ _ a b Hc) as [z [Hz _]]; try congruence.
      * now exists (Some (l, r)).
      * apply areBothValidDates_Some in Hv as [-> _]. eexists. reflexivity.
      * apply areBothValidDates_Some in Hv as [_ ->]. eexists. reflexivity.
    + right. split; [reflexivity |].
      destruct (ToString h a) as [sa | ea] eqn:Ha; [| left; now exists ea].
      destruct (ToString h b) as [sb | eb] eqn:Hb; [| right; now exists eb].
      rewrite (compare_fallback h this a b sa sb Hv Ha Hb) in He. discriminate.
    + left. now exists ev.
  - unfold compare, compareUnbound.
    intros [[e He] | [Hv Hr]].
    + rewrite He. now exists e.
    + rewrite Hv. cbn [bind].
      destruct Hr as [[e He] | [e He]].
      * rewrite He. now exists e.
      * rewrite He. destruct (ToString h a) as [sa | ea]; simpl; eexists; reflexivity.
Qed.

End Comparison.

Section Calendar.
Import Time.

(** [YearFromTime] is the year the day falls in: the largest [y] whose
    first day is not after it. *)
Lemma YearFromTime_bounds (t : Z) :
  DayFromYear (YearFromTime t) <= Day t < DayFromYear (YearFromTime t + 1).
Proof.
  unfold YearFromTime.
  set (d := Day t). clearbody d.
  set (y := 1970 + 400 * d / 146097).
  assert (Hy : y = 1970 + 400 * d / 146097) by reflexivity. clearbody y.
  destruct (Z.ltb_spec d (DayFromYear y)) as [Hlt | Hge].
  - unfold DayFromYear in *. replace (y - 1 + 1) with y by lia.
    split; [| lia]. Z.to_euclidean_division_equations. lia.
  - destruct (Z.leb_spec (DayFromYear (y + 1)) d) as [Hnext | Hnext].
    + unfold DayFromYear in *. split; [lia |].
      Z.to_euclidean_division_equations. lia.
    + lia.
Qed.

End Calendar.

Section Scenarios.
Import DateCollator Fixtures.

(** The documented examples, on a host in the UTC time zone. *)
Example same_day :
  compare utcHost (Spec.configuration [Spec.year; Spec.month; Spec.day] Spec.local)
    date2020_03_23T09_00 date2020_03_23T17_00 = Return (Num 0).
Proof. vm_compute. reflexivity. Qed.

Example same_time_of_day :
  compare utcHost (Spec.configuration [Spec.hour; Spec.minute] Spec.utc)
    (VDate (Some (Time.UTC 2020 2 23 11 0 0 0))) date2026_03_23T11_00
  = Return (Num 0).
Proof. vm_compute. reflexivity. Qed.

Example chronological :
  compare utcHost defaultOptions date2020_03_23T09_00 date2020_03_23T17_00
  = Return (Num (-1))
  /\ compare utcHost defaultOptions date2026_03_23T11_00 date2020_03_23T17_00
     = Return (Num 1).
Proof. split; vm_compute; reflexivity. Qed.

Example text_of_anyValidDate :
  ToString utcHost anyValidDate
  = Return "Mon Mar 23 2020 17:00:00 GMT+0000 (Coordinated Universal Time)".
Proof. vm_compute. reflexivity. Qed.

Example invalid_before_anyValidDate :
  compare utcHost defaultOptions invalidDate anyValidDate = Return (Num (-1)).
Proof. vm_compute. reflexivity. Qed.

Example unrecognized_usage :
  constructor utcHost VNull
    (Some {| dateSensitivity := VUndefined; dateUsage := VString "gmt" |})
  = Raise (RangeError
      "Value 'gmt' out of range for DateCollator options property 'dateUsage'.").
Proof. reflexivity. Qed.

End Scenarios.

(* ================================================================== *)
(** * The claims *)

Module Claims.
Import DateCollator Fixtures.

(** C1 (defect in the code).  [new DateCollator( null,
    {dateSensitivity:['millisecond']})] does not fail with a [RangeError]
    that cites ['millisecond']: building the message reads
    [eachDateSensitivity] outside the arrow function that declares it, and
    the construction fails with a [ReferenceError]. *)
Theorem unrecognized_part_raises_ReferenceError :
  constructor utcHost VNull
    (Some (onlySensitivity (VArray [VString "millisecond"])))
  = Raise (ReferenceError "eachDateSensitivity is not defined").
Proof. reflexivity. Qed.

(** C2 (defect in the code).  An invalid date compared with the valid
    date of Friday 27 March 2020 gives +1, not a negative number:
    ["Invalid Date"] sorts after ["Fri Mar 27 2020 ..."]. *)
Theorem invalid_date_sorts_after_a_friday :
  ToString utcHost date2020_03_27T17_00
  = Return "Fri Mar 27 2020 17:00:00 GMT+0000 (Coordinated Universal Time)"
  /\ compare utcHost defaultOptions invalidDate date2020_03_27T17_00
     = Return (Num 1)
  /\ compare utcHost defaultOptions date2020_03_27T17_00 invalidDate
     = Return (Num (-1)).
Proof. repeat split; vm_compute; reflexivity. Qed.




(** C4, as stated, fails: [{dateSensitivity: 0}] supplies a value that is
    not an array, and the construction succeeds with the default parts. *)
Lemma falsy_sensitivity_is_accepted :
  isArray (VNumber (Num 0)) = false
  /\ constructor utcHost VNull (Some (onlySensitivity (VNumber (Num 0))))
     = Return defaultOptions
  /\ ~ (exists message,
          constructor utcHost VNull (Some (onlySensitivity (VNumber (Num 0))))
          = Raise (TypeError message)).
Proof.
  split; [reflexivity | split; [reflexivity |]].
  intros [message H]. vm_compute in H. discriminate.
Qed.

(** C4, amended.  For every constructor call whose [dateSensitivity]
    option is truthy and is not an array, construction fails with a
    [TypeError]. *)
Theorem truthy_non_array_sensitivity_is_refused
        (h : Host) (_locales : Value) (o : Options) :
  truthy (dateSensitivity o) = true ->
  isArray (dateSensitivity o) = false ->
  exists message, constructor h _locales (Some o) = Raise (TypeError message).
Proof.
  intros Ht Ha. eexists. apply constructor_not_array; assumption.
Qed.

Lemma truthy_non_array_sensitivity_is_refused_witness :
  truthy (dateSensitivity (onlySensitivity (VString "year"))) = true
  /\ isArray (dateSensitivity (onlySensitivity (VString "year"))) = false
  /\ exists message,
       constructor utcHost VNull (Some (onlySensitivity (VString "year")))
       = Raise (TypeError message).
Proof.
  split; [reflexivity | split; [reflexivity |]].
  apply (truthy_non_array_sensitivity_is_refused utcHost VNull
           (onlySensitivity (VString "year"))); reflexivity.
Defined.

(** C5.  For every constructed configuration and every pair of valid
    dates, the result of mapping every configured part to its pair and
    reducing the pairs equals the short-circuit lexicographic comparison
    of the specification: the sign of the component difference at the
    first configured part whose pair differs, and 0 when every pair is
    equal. *)
Theorem compare_refines_shortCircuit
        (h : Host) (_locales : Value) (options : option Options)
        (this : Options) (l r : Z) :
  constructor h _locales options = Return this ->
  exists parts u,
    this = Spec.configuration parts u
    /\ compare h this (VDate (Some l)) (VDate (Some r))
       = Return (Num (Spec.shortCircuit h u parts l r)).
Proof.
  intros Hc.
  destruct (constructor_validated h _ _ _ Hc) as [parts [u ->]].
  exists parts, u. split; [reflexivity | apply compare_configuration].
Qed.

Lemma compare_refines_shortCircuit_witness :
  constructor utcHost VUndefined None = Return defaultOptions
  /\ exists parts u,
       defaultOptions = Spec.configuration parts u
       /\ compare utcHost defaultOptions
            (VDate (Some time2020_03_23T17_00))
            (VDate (Some time2026_03_23T11_00))
          = Return (Num (Spec.shortCircuit utcHost u parts
                           time2020_03_23T17_00 time2026_03_23T11_00)).
Proof.
  split; [reflexivity |].
  apply (compare_refines_shortCircuit utcHost VUndefined None defaultOptions
           time2020_03_23T17_00 time2026_03_23T11_00).
  reflexivity.
Defined.

(** C6.  Under any configuration, [compare] with both arguments absent
    returns 0, and for every valid date [v]: [compare( v, null ) < 0],
    [compare( v, undefined ) < 0], [compare( null, undefined ) < 0],
    [compare( null, v ) > 0], [compare( undefined, null ) > 0]; whenever
    the string fallback is taken, the result is the sign of the
    lexicographic comparison of the texts of the two inputs. *)
Theorem fallback_order (h : Host) (this : Options) (v : Z) :
  compare h this VUndefined VUndefined = Return (Num 0)
  /\ compare h this (VDate (Some v)) VNull = Return (Num (-1))
  /\ compare h this (VDate (Some v)) VUndefined = Return (Num (-1))
  /\ compare h this VNull VUndefined = Return (Num (-1))
  /\ compare h this VNull (VDate (Some v)) = Return (Num 1)
  /\ compare h this VUndefined VNull = Return (Num 1)
  /\ (forall a b sa sb,
        areBothValidDates a b = Return None ->
        ToString h a = Return sa ->
        ToString h b = Return sb ->
        compare h this a b = Return (Num (textOrder sa sb))).
Proof.
  split; [apply compare_absent_absent |].
  split; [apply compare_date_null |].
  split; [apply compare_date_undefined |].
  split; [apply compare_null_undefined |].
  split; [apply compare_null_date |].
  split; [apply compare_undefined_null |].
  intros a b sa sb. apply compare_fallback.
Qed.

Lemma fallback_order_witness :
  compare utcHost defaultOptions anyValidDate VNull = Return (Num (-1))
  /\ compare utcHost defaultOptions invalidDate VNull
     = Return (Num (textOrder "Invalid Date" "null")).
Proof.
  pose proof (fallback_order utcHost defaultOptions time2020_03_23T17_00)
    as [_ [Hnull [_ [_ [_ [_ Htext]]]]]].
  split; [exact Hnull |].
  apply (Htext invalidDate VNull); reflexivity.
Defined.

(** C7, as stated, fails: [compare( anyValidDate, null )] and
    [compare( null, undefined )] are both -1, not positive. *)
Lemma null_does_not_sort_after_absent :
  ~ (exists z, compare utcHost defaultOptions VNull VUndefined = Return (Num z)
               /\ 0 < z)
  /\ ~ (exists z, compare utcHost defaultOptions anyValidDate VNull
                  = Return (Num z) /\ 0 < z).
Proof.
  split; intros [z [Hz Hpos]]; vm_compute in Hz;
    injection Hz as <-; lia.
Qed.

(** C7, amended.  In the string-fallback order any valid date's text
    sorts before the text of [null], and the text of [null] sorts before
    the text of absent: for every valid date [v], [compare( v, null ) < 0]
    and [compare( null, undefined ) < 0]. *)
Theorem dates_before_null_before_absent (h : Host) (this : Options) (v : Z) :
  (exists z, compare h this (VDate (Some v)) VNull = Return (Num z) /\ z < 0)
  /\ (exists z, compare h this VNull VUndefined = Return (Num z) /\ z < 0).
Proof.
  split; exists (-1); (split; [| lia]).
  - apply compare_date_null.
  - apply compare_null_undefined.
Qed.




(** C9.  For all valid dates [a] and [b] compared with the same
    constructed configuration, both calls return and
    [sign( compare( a, b )) = - sign( compare( b, a ))]. *)
Theorem compare_antisymmetric
        (h : Host) (_locales : Value) (options : option Options)
        (this : Options) (a b : Z) :
  constructor h _locales options = Return this ->
  exists x y,
    compare h this (VDate (Some a)) (VDate (Some b)) = Return (Num x)
    /\ compare h this (VDate (Some b)) (VDate (Some a)) = Return (Num y)
    /\ Z.sgn x = - Z.sgn y.
Proof.
  intros Hc.
  destruct (constructor_validated h _ _ _ Hc) as [parts [u ->]].
  exists (Spec.shortCircuit h u parts a b), (Spec.shortCircuit h u parts b a).
  repeat split; try apply compare_configuration.
  rewrite (shortCircuit_antisym h u parts a b). rewrite Z.sgn_opp. lia.
Qed.

Lemma compare_antisymmetric_witness :
  constructor utcHost VUndefined None = Return defaultOptions
  /\ exists x y,
       compare utcHost defaultOptions
         (VDate (Some time2020_03_23T09_00)) (VDate (Some time2020_03_23T17_00))
       = Return (Num x)
       /\ compare utcHost defaultOptions
            (VDate (Some time2020_03_23T17_00)) (VDate (Some time2020_03_23T09_00))
          = Return (Num y)
       /\ Z.sgn x = - Z.sgn y.
Proof.
  split; [reflexivity |].
  apply (compare_antisymmetric utcHost VUndefined None defaultOptions
           time2020_03_23T09_00 time2020_03_23T17_00).
  reflexivity.
Defined.

(** C10.  An empty [dateSensitivity] array is accepted at construction,
    with [dateUsage] absent, ['local'] or ['utc'], and the comparator so
    configured returns 0 for every pair of valid dates. *)
Theorem empty_sensitivity_compares_equal
        (h : Host) (_locales : Value) (u : option Spec.DateUsage) (a b : Z) :
  exists this,
    constructor h _locales
      (Some {| dateSensitivity := VArray []; dateUsage := Spec.usageOption u |})
    = Return this
    /\ dateSensitivity this = VArray []
    /\ compare h this (VDate (Some a)) (VDate (Some b)) = Return (Num 0).
Proof.
  eexists. split; [apply constructor_empty |].
  split; [reflexivity | apply compare_configuration].
Qed.

End Claims.

(* ================================================================== *)
(** * Further properties of the class *)

Section CalendarOrder.
Import Time.

Lemma DayFromYear_mono (y1 y2 : Z) :
  y1 <= y2 -> DayFromYear y1 <= DayFromYear y2.
Proof.
  intros H. unfold DayFromYear. Z.to_euclidean_division_equations. lia.
Qed.

Lemma year_order (t1 t2 : Z) :
  YearFromTime t1 < YearFromTime t2 -> Day t1 < Day t2.
Proof.
  intros H.
  pose proof (YearFromTime_bounds t1) as [_ H1].
  pose proof (YearFromTime_bounds t2) as [H2 _].
  pose proof (DayFromYear_mono (YearFromTime t1 + 1) (YearFromTime t2)).
  lia.
Qed.

Lemma month_order (t1 t2 : Z) :
  YearFromTime t1 = YearFromTime t2 ->
  MonthFromTime t1 < MonthFromTime t2 -> Day t1 < Day t2.
Proof.
  unfold MonthFromTime, InLeapYear, DayWithinYear. intros ->.
  destruct (isLeap (YearFromTime t2));
    repeat match goal with
           | |- context [?a <? ?b] => destruct (Z.ltb_spec a b)
           end; lia.
Qed.

Lemma date_order (t1 t2 : Z) :
  YearFromTime t1 = YearFromTime t2 ->
  MonthFromTime t1 = MonthFromTime t2 ->
  DateFromTime t1 - DateFromTime t2 = Day t1 - Day t2.
Proof.
  unfold DateFromTime. intros Hy ->.
  unfold InLeapYear, DayWithinYear. rewrite Hy.
  destruct (MonthFromTime t2) as [|p|p]; try lia.
  do 4 (try destruct p as [p|p|]); lia.
Qed.

(** Hour, minute, second and millisecond order the time within the day
    lexicographically. *)
Lemma clock_order_within_day (t1 t2 : Z) :
  let w1 := t1 mod msPerDay in
  let w2 := t2 mod msPerDay in
  (HourFromTime t1 < HourFromTime t2 -> w1 < w2)
  /\ (HourFromTime t1 = HourFromTime t2 ->
      (MinFromTime t1 < MinFromTime t2 -> w1 < w2)
      /\ (MinFromTime t1 = MinFromTime t2 ->
          (SecFromTime t1 < SecFromTime t2 -> w1 < w2)
          /\ (SecFromTime t1 = SecFromTime t2 ->
              msFromTime t1 - msFromTime t2 = w1 - w2))).
Proof.
  unfold HourFromTime, MinFromTime, SecFromTime, msFromTime,
    msPerDay, msPerHour, msPerMinute, msPerSecond.
  cbv zeta. Z.to_euclidean_division_equations. lia.
Qed.

End CalendarOrder.

Section Lexicographic.
Import Parts.

Variable h : Host.
Variable u : Spec.DateUsage.


Lemma shortCircuit_zero_iff (parts : list Spec.DatePart) (l r : Z) :
  Spec.shortCircuit h u parts l r = 0
  <-> Forall (fun p => Spec.extract h u p l = Spec.extract h u p r) parts.
Proof.
  induction parts as [|p parts IH]; simpl.
  - split; [constructor | reflexivity].
  - destruct (Z.eqb_spec (Spec.extract h u p l - Spec.extract h u p r) 0)
      as [E | N].
    + rewrite IH. split.
      * intros H. constructor; [lia | exact H].
      * intros H. now inversion H.
    + split.
      * intros H. lia.
      * intros H. inversion H. lia.
Qed.

Lemma shortCircuit_app (xs ys : list Spec.DatePart) (l r : Z) :
  Spec.shortCircuit h u (xs ++ ys) l r
  = if Spec.shortCircuit h u xs l r =? 0
    then Spec.shortCircuit h u ys l r
    else Spec.shortCircuit h u xs l r.
Proof.
  induction xs as [|p xs IH]; simpl; [reflexivity |].
  destruct (Z.eqb_spec (Spec.extract h u p l - Spec.extract h u p r) 0)
    as [E | N].
  - exact IH.
  - destruct (Z.eqb_spec (Z.sgn (Spec.extract h u p l - Spec.extract h u p r)) 0);
      [lia | reflexivity].
Qed.

Lemma shortCircuit_trans (parts : list Spec.DatePart) (a b c : Z) :
  Spec.shortCircuit h u parts a b <= 0 ->
  Spec.shortCircuit h u parts b c <= 0 ->
  Spec.shortCircuit h u parts a c <= 0
  /\ (Spec.shortCircuit h u parts a c = 0 ->
      Spec.shortCircuit h u parts a b = 0 /\ Spec.shortCircuit h u parts b c = 0).
Proof.
  induction parts as [|p parts IH]; simpl; [lia |].
  set (x := Spec.extract h u p a). set (y := Spec.extract h u p b).
  set (z := Spec.extract h u p c).
  destruct (Z.eqb_spec (x - y) 0), (Z.eqb_spec (y - z) 0), (Z.eqb_spec (x - z) 0);
    try lia; auto.
Qed.

(** A part repeated later in the sequence never decides. *)
Lemma shortCircuit_repeated (xs ys : list Spec.DatePart) (p : Spec.DatePart)
      (l r : Z) :
  In p xs ->
  Spec.shortCircuit h u (xs ++ p :: ys) l r
  = Spec.shortCircuit h u (xs ++ ys) l r.
Proof.
  intros Hin. rewrite !shortCircuit_app.
  destruct (Z.eqb_spec (Spec.shortCircuit h u xs l r) 0) as [E | N];
    [| reflexivity].
  apply shortCircuit_zero_iff in E.
  rewrite Forall_forall in E. specialize (E p Hin).
  simpl. rewrite E, Z.sub_diag. reflexivity.
Qed.

Lemma extract_view (p : Spec.DatePart) (t : Z) :
  Spec.extract h u p t = Spec.extract h Spec.utc p (viewTime h u t).
Proof. destruct u, p; reflexivity. Qed.

Lemma shortCircuit_view (parts : list Spec.DatePart) (l r : Z) :
  Spec.shortCircuit h u parts l r
  = Spec.shortCircuit h Spec.utc parts (viewTime h u l) (viewTime h u r).
Proof.
  induction parts as [|p parts IH]; simpl; [reflexivity |].
  now rewrite IH, !(extract_view p).
Qed.

End Lexicographic.

Section Chronology.
Import Time DatePrototype Parts.

Variable h : Host.

Lemma shortCircuit_calendarDay (t1 t2 : Z) :
  Spec.shortCircuit h Spec.utc calendarDay t1 t2 = Z.sgn (Day t1 - Day t2).
Proof.
  unfold calendarDay.
  cbn [Spec.shortCircuit Spec.extract Spec.fullYear Spec.monthIndex
       Spec.dayOfMonth].
  unfold getUTCFullYear, getUTCMonth, getUTCDate.
  destruct (Z.eqb_spec (YearFromTime t1 - YearFromTime t2) 0) as [Ey | Ny].
  - assert (Hy : YearFromTime t1 = YearFromTime t2) by lia.
    destruct (Z.eqb_spec (MonthFromTime t1 - MonthFromTime t2) 0) as [Em | Nm].
    + assert (Hm : MonthFromTime t1 = MonthFromTime t2) by lia.
      rewrite (date_order t1 t2 Hy Hm).
      destruct (Z.eqb_spec (Day t1 - Day t2) 0) as [-> |]; reflexivity.
    + pose proof (month_order t1 t2 Hy).
      pose proof (month_order t2 t1 (eq_sym Hy)). lia.
  - pose proof (year_order t1 t2). pose proof (year_order t2 t1). lia.
Qed.

Lemma shortCircuit_timeOfDay (t1 t2 : Z) :
  Spec.shortCircuit h Spec.utc timeOfDay t1 t2
  = Z.sgn (t1 mod msPerDay - t2 mod msPerDay).
Proof.
  unfold timeOfDay.
  cbn [Spec.shortCircuit Spec.extract Spec.hours Spec.minutes Spec.seconds
       Spec.milliseconds].
  unfold getUTCHours, getUTCMinutes, getUTCSeconds, getUTCMilliseconds.
  pose proof (clock_order_within_day t1 t2) as H12.
  pose proof (clock_order_within_day t2 t1) as H21.
  cbv zeta in H12, H21.
  repeat match goal with
         | |- context [?a =? 0] => destruct (Z.eqb_spec a 0)
         end; lia.
Qed.

Lemma shortCircuit_defaultParts (t1 t2 : Z) :
  Spec.shortCircuit h Spec.utc defaultParts t1 t2 = Z.sgn (t1 - t2).
Proof.
  unfold defaultParts.
  rewrite shortCircuit_app, shortCircuit_calendarDay, shortCircuit_timeOfDay.
  unfold Day, msPerDay.
  destruct (Z.eqb_spec (Z.sgn (t1 / 86400000 - t2 / 86400000)) 0);
    Z.to_euclidean_division_equations; lia.
Qed.

End Chronology.

Section TextOrder.

Lemma ascii_compare_cases (x y : ascii) :
  match Ascii.compare x y with
  | Eq => x = y
  | Lt => (N_of_ascii x < N_of_ascii y)%N
  | Gt => (N_of_ascii y < N_of_ascii x)%N
  end.
Proof.
  destruct (Ascii.compare x y) eqn:E.
  - now apply Ascii.compare_eq_iff.
  - unfold Ascii.compare in E. now apply N.compare_lt_iff.
  - unfold Ascii.compare in E. now apply N.compare_gt_iff.
Qed.

Lemma string_compare_refl (s : string) : String.compare s s = Eq.
Proof.
  pose proof (String.compare_antisym s s) as H.
  destruct (String.compare s s); simpl in H; congruence.
Qed.

Lemma textOrder_zero_iff (a b : string) : textOrder a b = 0 <-> a = b.
Proof.
  unfold textOrder. split.
  - destruct (String.compare a b) eqn:E; try discriminate.
    intros _. now apply String.compare_eq_iff.
  - intros ->. now rewrite string_compare_refl.
Qed.

Lemma textOrder_antisym (a b : string) : textOrder b a = - textOrder a b.
Proof.
  unfold textOrder. rewrite (String.compare_antisym b a).
  destruct (String.compare a b); reflexivity.
Qed.

Lemma textOrder_trans (a b c : string) :
  textOrder a b <= 0 -> textOrder b c <= 0 ->
  textOrder a c <= 0
  /\ (textOrder a c = 0 -> textOrder a b = 0 /\ textOrder b c = 0).
Proof.
  unfold textOrder. revert b c.
  induction a as [|x a IH]; intros [|y b] [|z c]; simpl; try lia.
  pose proof (ascii_compare_cases x y) as Hxy.
  pose proof (ascii_compare_cases y z) as Hyz.
  pose proof (ascii_compare_cases x z) as Hxz.
  destruct (Ascii.compare x y), (Ascii.compare y z), (Ascii.compare x z);
    subst; try lia; try apply IH.
Qed.

End TextOrder.

Section Validation.
Import DateCollator Parts.

Variable h : Host.

Lemma includes_tag (p : Spec.DatePart) :
  includes DateSensitivity (tagValue p) = true.
Proof. destruct p; reflexivity. Qed.

Lemma includes_usageTag (u : Spec.DateUsage) :
  includes DateUsage (VString (Spec.usageTag u)) = true.
Proof. destruct u; reflexivity. Qed.

Lemma tags_recognized (parts : list Spec.DatePart) :
  existsb (fun e => negb (includes DateSensitivity e)) (map tagValue parts)
  = false.
Proof.
  induction parts as [|p parts IH]; cbn [map existsb]; [reflexivity |].
  now rewrite includes_tag, IH.
Qed.

(** The constructor in terms of the two options after defaulting. *)
Lemma constructor_after_defaults (_locales : Value) (options : option Options) :
  constructor h _locales options
  = let sensitivity :=
      or_else (dateSensitivity (supplied options)) defaultDateSensitivity in
    let usage := or_else (dateUsage (supplied options)) (VString "local") in
    match sensitivity with
    | VArray elements =>
        if existsb (fun e => negb (includes DateSensitivity e)) elements
        then
          match globalBinding h "eachDateSensitivity" with
          | None => Raise (ReferenceError "eachDateSensitivity is not defined")
          | Some g =>
              s <- ToString h g ;;
              Raise (RangeError ("Value '" ++ s ++
                "' out of range for DateCollator options property 'dateSensitivity'."))
          end
        else if negb (includes DateUsage usage)
        then
          s <- ToString h usage ;;
          Raise (RangeError ("Value '" ++ s ++
            "' out of range for DateCollator options property 'dateUsage'."))
        else Return {| dateSensitivity := sensitivity; dateUsage := usage |}
    | _ =>
        Raise (TypeError
          "DateCollator options property 'dateSensitivity' must be an array.")
    end.
Proof. destruct options; reflexivity. Qed.

Lemma constructor_accepts (_locales : Value) (options : option Options)
      (parts : list Spec.DatePart) (u : Spec.DateUsage) :
  or_else (dateSensitivity (supplied options)) defaultDateSensitivity
  = VArray (map tagValue parts) ->
  or_else (dateUsage (supplied options)) (VString "local")
  = VString (Spec.usageTag u) ->
  constructor h _locales options = Return (Spec.configuration parts u).
Proof.
  intros Hs Hu. rewrite constructor_after_defaults. cbv zeta.
  rewrite Hs, Hu, tags_recognized, includes_usageTag. reflexivity.
Qed.

Lemma constructor_stores (_locales : Value) (options : option Options)
      (this : Options) :
  constructor h _locales options = Return this ->
  dateSensitivity this
  = or_else (dateSensitivity (supplied options)) defaultDateSensitivity
  /\ dateUsage this
     = or_else (dateUsage (supplied options)) (VString "local").
Proof.
  rewrite constructor_after_defaults. cbv zeta.
  destruct (or_else (dateSensitivity (supplied options)) defaultDateSensitivity)
    as [| | | | | |elements| |]; try discriminate.
  destruct (existsb _ elements).
  - destruct (globalBinding h "eachDateSensitivity") as [g|]; [| discriminate].
    destruct (ToString h g); discriminate.
  - destruct (negb (includes DateUsage _)).
    + destruct (ToString h _); discriminate.
    + intros [= <-]. split; reflexivity.
Qed.

End Validation.

Section FallbackEquation.
Import DateCollator.

Variable h : Host.
Variable this : Options.



End FallbackEquation.

(* ================================================================== *)
(** * Further theorems *)

Module Extras.
Import DateCollator Fixtures Parts.

(** X1.  The constructor succeeds exactly when, after the defaults are
    applied, [dateSensitivity] is an array of recognized part tags (in any
    order, with or without repetitions, possibly empty) and [dateUsage] is
    ['local'] or ['utc']; it then stores these two values unchanged. *)
Theorem constructor_accepts_exactly
        (h : Host) (_locales : Value) (options : option Options)
        (this : Options) :
  constructor h _locales options = Return this
  <-> exists parts u,
        or_else (dateSensitivity (supplied options)) defaultDateSensitivity
        = VArray (map tagValue parts)
        /\ or_else (dateUsage (supplied options)) (VString "local")
           = VString (Spec.usageTag u)
        /\ this = Spec.configuration parts u.
Proof.
  split.
  - intros Hc.
    destruct (constructor_stores h _ _ _ Hc) as [Hs Hu].
    destruct (constructor_validated h _ _ _ Hc) as [parts [u ->]].
    exists parts, u. simpl in Hs, Hu.
    split; [symmetry; exact Hs | split; [symmetry; exact Hu | reflexivity]].
  - intros [parts [u [Hs [Hu ->]]]]. now apply constructor_accepts.
Qed.

(** X2.  A missing options object, and an options object whose
    [dateSensitivity] and [dateUsage] are both falsy ([undefined], [null],
    [0], [''], [false], [NaN]), give the default configuration: year, month,
    day, hour, minute, second, fractionalSecond in local time. *)
Theorem falsy_options_take_defaults
        (h : Host) (_locales : Value) (options : option Options) :
  truthy (dateSensitivity (supplied options)) = false ->
  truthy (dateUsage (supplied options)) = false ->
  constructor h _locales options = Return defaultOptions.
Proof.
  intros Hs Hu.
  apply (constructor_accepts h _locales options defaultParts Spec.local);
    unfold or_else; [rewrite Hs | rewrite Hu]; reflexivity.
Qed.

Lemma falsy_options_take_defaults_witness :
  truthy (dateSensitivity
            (supplied (Some {| dateSensitivity := VNull;
                               dateUsage := VString "" |}))) = false
  /\ truthy (dateUsage
               (supplied (Some {| dateSensitivity := VNull;
                                  dateUsage := VString "" |}))) = false
  /\ constructor utcHost VNull
       (Some {| dateSensitivity := VNull; dateUsage := VString "" |})
     = Return defaultOptions.
Proof.
  split; [reflexivity | split; [reflexivity |]].
  apply (falsy_options_take_defaults utcHost VNull
           (Some {| dateSensitivity := VNull; dateUsage := VString "" |}));
    reflexivity.
Defined.

(** X3.  With an acceptable [dateSensitivity], a [dateUsage] that is
    neither ['local'] nor ['utc'] makes the construction fail with a
    [RangeError] whose message cites the text of the value; when the value
    cannot be converted to a string, the error of that conversion is thrown
    instead. *)
Theorem unrecognized_usage_is_refused
        (h : Host) (_locales : Value) (options : option Options)
        (parts : list Spec.DatePart) :
  or_else (dateSensitivity (supplied options)) defaultDateSensitivity
  = VArray (map tagValue parts) ->
  includes DateUsage
    (or_else (dateUsage (supplied options)) (VString "local")) = false ->
  (forall s,
     ToString h (or_else (dateUsage (supplied options)) (VString "local"))
     = Return s ->
     constructor h _locales options
     = Raise (RangeError ("Value '" ++ s ++
         "' out of range for DateCollator options property 'dateUsage'.")))
  /\ (forall e,
        ToString h (or_else (dateUsage (supplied options)) (VString "local"))
        = Raise e ->
        constructor h _locales options = Raise e).
Proof.
  intros Hs Hu. rewrite constructor_after_defaults. cbv zeta.
  rewrite Hs, tags_recognized, Hu. cbn [negb].
  split; intros x Hx; rewrite Hx; reflexivity.
Qed.

Lemma unrecognized_usage_is_refused_witness :
  or_else (dateSensitivity
             (supplied (Some {| dateSensitivity := VUndefined;
                                dateUsage := VString "gmt" |})))
    defaultDateSensitivity
  = VArray (map tagValue defaultParts)
  /\ includes DateUsage
       (or_else (dateUsage
                   (supplied (Some {| dateSensitivity := VUndefined;
                                      dateUsage := VString "gmt" |})))
          (VString "local")) = false
  /\ constructor utcHost VNull
       (Some {| dateSensitivity := VUndefined; dateUsage := VString "gmt" |})
     = Raise (RangeError ("Value '" ++ "gmt" ++
         "' out of range for DateCollator options property 'dateUsage'.")).
Proof.
  split; [reflexivity | split; [reflexivity |]].
  exact (proj1 (unrecognized_usage_is_refused utcHost VNull
                  (Some {| dateSensitivity := VUndefined;
                           dateUsage := VString "gmt" |})
                  defaultParts eq_refl eq_refl) "gmt" eq_refl).
Defined.

(** X4.  When the [dateSensitivity] array holds an element that is not a
    recognized tag, the construction fails whatever [dateUsage] is, and the
    message never cites the element: the identifier it reads is resolved in
    the global scope, so the error is a [ReferenceError] when no global of
    that name exists and otherwise a [RangeError] citing the text of that
    global. *)
Theorem unrecognized_part_is_never_cited
        (h : Host) (_locales : Value) (options : option Options)
        (elements : list Value) :
  or_else (dateSensitivity (supplied options)) defaultDateSensitivity
  = VArray elements ->
  existsb (fun e => negb (includes DateSensitivity e)) elements = true ->
  (globalBinding h "eachDateSensitivity" = None ->
   constructor h _locales options
   = Raise (ReferenceError "eachDateSensitivity is not defined"))
  /\ (forall g s,
        globalBinding h "eachDateSensitivity" = Some g ->
        ToString h g = Return s ->
        constructor h _locales options
        = Raise (RangeError ("Value '" ++ s ++
            "' out of range for DateCollator options property 'dateSensitivity'."))).
Proof.
  intros Hs He. rewrite constructor_after_defaults. cbv zeta.
  rewrite Hs, He. split.
  - intros ->. reflexivity.
  - intros g s -> ->. reflexivity.
Qed.

Lemma unrecognized_part_is_never_cited_witness :
  or_else (dateSensitivity
             (supplied (Some {| dateSensitivity :=
                                  VArray [VString "year"; VString "millisecond"];
                                dateUsage := VString "gmt" |})))
    defaultDateSensitivity
  = VArray [VString "year"; VString "millisecond"]
  /\ existsb (fun e => negb (includes DateSensitivity e))
       [VString "year"; VString "millisecond"] = true
  /\ constructor utcHost VNull
       (Some {| dateSensitivity := VArray [VString "year"; VString "millisecond"];
                dateUsage := VString "gmt" |})
     = Raise (ReferenceError "eachDateSensitivity is not defined").
Proof.
  split; [reflexivity | split; [reflexivity |]].
  exact (proj1 (unrecognized_part_is_never_cited utcHost VNull
                  (Some {| dateSensitivity :=
                             VArray [VString "year"; VString "millisecond"];
                           dateUsage := VString "gmt" |})
                  [VString "year"; VString "millisecond"] eq_refl eq_refl)
               eq_refl).
Defined.

(** X5.  The options a constructed collator stores construct, on any host
    and with any locale argument, a collator with the same stored options:
    validation and defaulting change nothing the second time. *)
Theorem stored_options_construct_the_same
        (h h' : Host) (_locales _locales' : Value) (options : option Options)
        (this : Options) :
  constructor h _locales options = Return this ->
  constructor h' _locales' (Some this) = Return this.
Proof.
  intros Hc.
  destruct (constructor_validated h _ _ _ Hc) as [parts [u ->]].
  apply constructor_accepts; [reflexivity | destruct u; reflexivity].
Qed.

Lemma stored_options_construct_the_same_witness :
  constructor utcHost VNull
    (Some {| dateSensitivity := VArray [VString "day"; VString "day"];
             dateUsage := VUndefined |})
  = Return (Spec.configuration [Spec.day; Spec.day] Spec.local)
  /\ constructor utcHost VUndefined
       (Some (Spec.configuration [Spec.day; Spec.day] Spec.local))
     = Return (Spec.configuration [Spec.day; Spec.day] Spec.local).
Proof.
  split; [reflexivity |].
  apply (stored_options_construct_the_same utcHost utcHost VNull VUndefined
           (Some {| dateSensitivity := VArray [VString "day"; VString "day"];
                    dateUsage := VUndefined |})).
  reflexivity.
Defined.





(** X8.  On valid dates a constructed collator is transitive: when
    [compare( a, b ) <= 0] and [compare( b, c ) <= 0] then
    [compare( a, c ) <= 0], and [compare( a, c )] is 0 only when both of
    the others are.  With X6 and X7 this makes [compare] a consistent
    comparison function for sorting valid dates. *)
Theorem compare_transitive_on_valid_dates
        (h : Host) (_locales : Value) (options : option Options)
        (this : Options) (a b c x y : Z) :
  constructor h _locales options = Return this ->
  compare h this (VDate (Some a)) (VDate (Some b)) = Return (Num x) ->
  compare h this (VDate (Some b)) (VDate (Some c)) = Return (Num y) ->
  x <= 0 -> y <= 0 ->
  exists z,
    compare h this (VDate (Some a)) (VDate (Some c)) = Return (Num z)
    /\ z <= 0 /\ (z = 0 -> x = 0 /\ y = 0).
Proof.
  intros Hc.
  destruct (constructor_validated h _ _ _ Hc) as [parts [u ->]].
  rewrite !compare_configuration. intros [= <-] [= <-] Hx Hy.
  eexists. split; [reflexivity |].
  apply shortCircuit_trans; assumption.
Qed.

Lemma compare_transitive_on_valid_dates_witness :
  constructor utcHost VUndefined None = Return defaultOptions
  /\ compare utcHost defaultOptions
       (VDate (Some time2020_03_23T09_00)) (VDate (Some time2020_03_23T17_00))
     = Return (Num (-1))
  /\ compare utcHost defaultOptions
       (VDate (Some time2020_03_23T17_00)) (VDate (Some time2026_03_23T11_00))
     = Return (Num (-1))
  /\ -1 <= 0
  /\ exists z,
       compare utcHost defaultOptions
         (VDate (Some time2020_03_23T09_00)) (VDate (Some time2026_03_23T11_00))
       = Return (Num z)
       /\ z <= 0 /\ (z = 0 -> -1 = 0 /\ -1 = 0).
Proof.
  assert (Hc : constructor utcHost VUndefined None = Return defaultOptions)
    by reflexivity.
  assert (Hab : compare utcHost defaultOptions
                  (VDate (Some time2020_03_23T09_00))
                  (VDate (Some time2020_03_23T17_00)) = Return (Num (-1)))
    by (vm_compute; reflexivity).
  assert (Hbc : compare utcHost defaultOptions
                  (VDate (Some time2020_03_23T17_00))
                  (VDate (Some time2026_03_23T11_00)) = Return (Num (-1)))
    by (vm_compute; reflexivity).
  assert (Hle : -1 <= 0) by lia.
  split; [exact Hc | split; [exact Hab | split; [exact Hbc | split; [exact Hle |]]]].
  exact (compare_transitive_on_valid_dates utcHost VUndefined None defaultOptions
           time2020_03_23T09_00 time2020_03_23T17_00 time2026_03_23T11_00
           (-1) (-1) Hc Hab Hbc Hle Hle).
Defined.

(** X9.  Among three inputs every pair of which takes the string fallback
    (at most one of them is a valid date), [compare] is transitive under
    any configuration: the fallback is the lexicographic order of the
    texts. *)
Theorem compare_transitive_on_texts
        (h : Host) (this : Options) (a b c : Value) (sa sb sc : string) :
  areBothValidDates a b = Return None ->
  areBothValidDates b c = Return None ->
  areBothValidDates a c = Return None ->
  ToString h a = Return sa ->
  ToString h b = Return sb ->
  ToString h c = Return sc ->
  exists x y z,
    compare h this a b = Return (Num x)
    /\ compare h this b c = Return (Num y)
    /\ compare h this a c = Return (Num z)
    /\ (x <= 0 -> y <= 0 -> z <= 0 /\ (z = 0 -> x = 0 /\ y = 0)).
Proof.
  intros Hab Hbc Hac Ha Hb Hc.
  exists (textOrder sa sb), (textOrder sb sc), (textOrder sa sc).
  rewrite (compare_fallback h this a b sa sb), (compare_fallback h this b c sb sc),
    (compare_fallback h this a c sa sc); auto.
  repeat split; try reflexivity; intros; apply (textOrder_trans sa sb sc); auto.
Qed.

Lemma compare_transitive_on_texts_witness :
  areBothValidDates invalidDate VNull = Return None
  /\ areBothValidDates VNull VUndefined = Return None
  /\ areBothValidDates invalidDate VUndefined = Return None
  /\ ToString utcHost invalidDate = Return "Invalid Date"
  /\ ToString utcHost VNull = Return "null"
  /\ ToString utcHost VUndefined = Return "undefined"
  /\ exists x y z,
       compare utcHost defaultOptions invalidDate VNull = Return (Num x)
       /\ compare utcHost defaultOptions VNull VUndefined = Return (Num y)
       /\ compare utcHost defaultOptions invalidDate VUndefined = Return (Num z)
       /\ (x <= 0 -> y <= 0 -> z <= 0 /\ (z = 0 -> x = 0 /\ y = 0)).
Proof.
  split; [reflexivity |].
  split; [reflexivity |].
  split; [reflexivity |].
  split; [reflexivity | split; [reflexivity | split; [reflexivity |]]].
  exact (compare_transitive_on_texts utcHost defaultOptions
           invalidDate VNull VUndefined "Invalid Date" "null" "undefined"
           eq_refl eq_refl eq_refl eq_refl eq_refl eq_refl).
Defined.

(** X10.  Mixing an invalid date with valid dates breaks transitivity for
    the default collator: every valid date that falls on a Friday sorts
    before an invalid date, which sorts before every valid date of another
    weekday, even when the Friday is not the earlier of the two dates. *)
Theorem invalid_date_breaks_transitivity (h : Host) (f m : Z) :
  DatePrototype.getDay h f = 5 ->
  DatePrototype.getDay h m <> 5 ->
  Time.LocalTime h m <= Time.LocalTime h f ->
  compare h defaultOptions (VDate (Some f)) invalidDate = Return (Num (-1))
  /\ compare h defaultOptions invalidDate (VDate (Some m)) = Return (Num (-1))
  /\ exists z,
       compare h defaultOptions (VDate (Some f)) (VDate (Some m)) = Return (Num z)
       /\ 0 <= z.
Proof.
  intros Hf Hm Hle. split; [| split].
  - rewrite (compare_fallback h _ _ _
               (DatePrototype.ToDateString h (Some f)) "Invalid Date");
      [| reflexivity | reflexivity | reflexivity].
    rewrite textOrder_antisym. unfold textOrder.
    rewrite invalid_text_against_date, Hf. reflexivity.
  - rewrite compare_invalid_date.
    destruct (Z.eqb_spec (DatePrototype.getDay h m) 5); [contradiction | reflexivity].
  - change defaultOptions with (Spec.configuration defaultParts Spec.local).
    rewrite compare_configuration, shortCircuit_view, shortCircuit_defaultParts.
    eexists. split; [reflexivity |]. simpl. lia.
Qed.

Lemma invalid_date_breaks_transitivity_witness :
  DatePrototype.getDay utcHost time2020_03_27T17_00 = 5
  /\ DatePrototype.getDay utcHost time2020_03_23T17_00 <> 5
  /\ Time.LocalTime utcHost time2020_03_23T17_00
     <= Time.LocalTime utcHost time2020_03_27T17_00
  /\ compare utcHost defaultOptions date2020_03_27T17_00 invalidDate
     = Return (Num (-1))
  /\ compare utcHost defaultOptions invalidDate date2020_03_23T17_00
     = Return (Num (-1))
  /\ exists z,
       compare utcHost defaultOptions date2020_03_27T17_00 date2020_03_23T17_00
       = Return (Num z)
       /\ 0 <= z.
Proof.
  assert (Hf : DatePrototype.getDay utcHost time2020_03_27T17_00 = 5)
    by reflexivity.
  assert (Hm : DatePrototype.getDay utcHost time2020_03_23T17_00 <> 5)
    by (vm_compute; discriminate).
  assert (Hle : Time.LocalTime utcHost time2020_03_23T17_00
                <= Time.LocalTime utcHost time2020_03_27T17_00)
    by (vm_compute; discriminate).
  split; [exact Hf | split; [exact Hm | split; [exact Hle |]]].
  exact (invalid_date_breaks_transitivity utcHost
           time2020_03_27T17_00 time2020_03_23T17_00 Hf Hm Hle).
Defined.

(** X11.  Two valid dates compare equal exactly when they agree on every
    configured part; parts that are not configured are ignored. *)
Theorem compare_zero_iff_parts_agree
        (h : Host) (parts : list Spec.DatePart) (u : Spec.DateUsage) (l r : Z) :
  compare h (Spec.configuration parts u) (VDate (Some l)) (VDate (Some r))
  = Return (Num 0)
  <-> Forall (fun p => Spec.extract h u p l = Spec.extract h u p r) parts.
Proof.
  rewrite compare_configuration, <- shortCircuit_zero_iff.
  split; [now intros [= ->] | now intros ->].
Qed.

(** X12.  Parts appended to a sensitivity only break ties: the result
    under [xs ++ ys] is the result under [xs] when that is not 0, and the
    result under [ys] otherwise. *)
Theorem later_parts_only_break_ties
        (h : Host) (xs ys : list Spec.DatePart) (u : Spec.DateUsage) (l r : Z) :
  exists x,
    compare h (Spec.configuration xs u) (VDate (Some l)) (VDate (Some r))
    = Return (Num x)
    /\ compare h (Spec.configuration (xs ++ ys) u) (VDate (Some l)) (VDate (Some r))
       = if x =? 0
         then compare h (Spec.configuration ys u) (VDate (Some l)) (VDate (Some r))
         else Return (Num x).
Proof.
  exists (Spec.shortCircuit h u xs l r).
  rewrite !compare_configuration, shortCircuit_app.
  split; [reflexivity |].
  destruct (Spec.shortCircuit h u xs l r =? 0); reflexivity.
Qed.

(** X13.  Repeating a part later in [dateSensitivity] changes no result:
    the second occurrence can be removed. *)
Theorem repeated_part_is_redundant
        (h : Host) (xs ys : list Spec.DatePart) (p : Spec.DatePart)
        (u : Spec.DateUsage) (l r : Z) :
  In p xs ->
  compare h (Spec.configuration (xs ++ p :: ys) u) (VDate (Some l)) (VDate (Some r))
  = compare h (Spec.configuration (xs ++ ys) u) (VDate (Some l)) (VDate (Some r)).
Proof.
  intros Hin. rewrite !compare_configuration.
  now rewrite shortCircuit_repeated.
Qed.

Lemma repeated_part_is_redundant_witness :
  In Spec.year [Spec.year; Spec.month]
  /\ compare utcHost
       (Spec.configuration ([Spec.year; Spec.month] ++ Spec.year :: [Spec.day])
          Spec.utc)
       (VDate (Some time2020_03_23T09_00)) (VDate (Some time2026_03_23T11_00))
     = compare utcHost
         (Spec.configuration ([Spec.year; Spec.month] ++ [Spec.day]) Spec.utc)
         (VDate (Some time2020_03_23T09_00)) (VDate (Some time2026_03_23T11_00)).
Proof.
  assert (Hin : In Spec.year [Spec.year; Spec.month]) by (simpl; auto).
  split; [exact Hin |].
  exact (repeated_part_is_redundant utcHost [Spec.year; Spec.month] [Spec.day]
           Spec.year Spec.utc time2020_03_23T09_00 time2026_03_23T11_00 Hin).
Defined.

(** X14.  The default collator is chronological on valid dates: with the
    seven default parts the result is the sign of the difference of the two
    local times, and with ['utc'] usage the sign of the difference of the
    two time values. *)
Theorem default_parts_are_chronological (h : Host) (_locales : Value) (l r : Z) :
  constructor h _locales None = Return (Spec.configuration defaultParts Spec.local)
  /\ compare h (Spec.configuration defaultParts Spec.local)
       (VDate (Some l)) (VDate (Some r))
     = Return (Num (Z.sgn (Time.LocalTime h l - Time.LocalTime h r)))
  /\ compare h (Spec.configuration defaultParts Spec.utc)
       (VDate (Some l)) (VDate (Some r))
     = Return (Num (Z.sgn (l - r))).
Proof.
  split; [reflexivity |].
  rewrite !compare_configuration.
  rewrite (shortCircuit_view h Spec.local), !shortCircuit_defaultParts.
  split; reflexivity.
Qed.

(** X15.  With the sensitivity year, month, day the collator compares
    calendar days: the result is the sign of the difference of the day
    numbers of the two dates, in local time or in UTC as configured. *)
Theorem calendar_day_granularity
        (h : Host) (u : Spec.DateUsage) (l r : Z) :
  compare h (Spec.configuration calendarDay u) (VDate (Some l)) (VDate (Some r))
  = Return (Num (Z.sgn (Time.Day (viewTime h u l) - Time.Day (viewTime h u r)))).
Proof.
  rewrite compare_configuration.
  rewrite shortCircuit_view.
  rewrite shortCircuit_calendarDay.
  reflexivity.
Qed.

(** X16.  With the sensitivity hour, minute, second, fractionalSecond the
    collator compares the time of day whatever the day: the result is the
    sign of the difference of the milliseconds elapsed since midnight. *)
Theorem time_of_day_granularity
        (h : Host) (u : Spec.DateUsage) (l r : Z) :
  compare h (Spec.configuration timeOfDay u) (VDate (Some l)) (VDate (Some r))
  = Return (Num (Z.sgn (viewTime h u l mod Time.msPerDay
                        - viewTime h u r mod Time.msPerDay))).
Proof.
  rewrite compare_configuration.
  rewrite shortCircuit_view.
  rewrite shortCircuit_timeOfDay.
  reflexivity.
Qed.

(** X17.  Where an invalid date sorts against a valid one depends on the
    weekday alone, under any configuration: the invalid date comes after
    the valid date when that falls on a Friday in local time, and before it
    on every other day of the week. *)
Theorem invalid_date_against_valid_date (h : Host) (this : Options) (t : Z) :
  compare h this invalidDate (VDate (Some t))
  = Return (Num (if DatePrototype.getDay h t =? 5 then 1 else -1))
  /\ compare h this (VDate (Some t)) invalidDate
     = Return (Num (if DatePrototype.getDay h t =? 5 then -1 else 1)).
Proof.
  split.
  - apply compare_invalid_date.
  - rewrite (compare_fallback h _ _ _
               (DatePrototype.ToDateString h (Some t)) "Invalid Date");
      [| reflexivity | reflexivity | reflexivity].
    rewrite textOrder_antisym. unfold textOrder.
    rewrite invalid_text_against_date.
    destruct (DatePrototype.getDay h t =? 5); reflexivity.
Qed.

(** X18.  When the string fallback is taken, the two inputs compare equal
    exactly when their texts are equal: [null] equals the string ['null'],
    and two invalid dates are equal. *)
Theorem fallback_zero_iff_same_text
        (h : Host) (this : Options) (a b : Value) (sa sb : string) :
  areBothValidDates a b = Return None ->
  ToString h a = Return sa ->
  ToString h b = Return sb ->
  (compare h this a b = Return (Num 0) <-> sa = sb).
Proof.
  intros Hnv Ha Hb. rewrite (compare_fallback h this a b sa sb); auto.
  rewrite <- textOrder_zero_iff.
  split; [now intros [= ->] | now intros ->].
Qed.

Lemma fallback_zero_iff_same_text_witness :
  areBothValidDates VNull (VString "null") = Return None
  /\ ToString utcHost VNull = Return "null"
  /\ ToString utcHost (VString "null") = Return "null"
  /\ (compare utcHost defaultOptions VNull (VString "null") = Return (Num 0)
      <-> "null" = "null").
Proof.
  split; [reflexivity | split; [reflexivity | split; [reflexivity |]]].
  exact (fallback_zero_iff_same_text utcHost defaultOptions VNull (VString "null")
           "null" "null" eq_refl eq_refl eq_refl).
Defined.



End Extras.
